(** * Milk bill record service: a shallow embedding of [server.js]

    The service is an Express application over one Mongoose model, [Bill].
    This development embeds

    - the ECMAScript operations the handlers call on the untyped request
      payload ([String], [parseFloat], [new Date], truthiness, [isNaN]);
    - the schema of the [Bill] model with its validators, and the store
      operations the handlers use ([save], [find] with [$regex] filters and
      a [sort], [findByIdAndDelete]);
    - the four route handlers, as functions from a request and the stored
      collection to a response and the new collection.

    Numbers are IEEE 754 binary64 values (the primitive floats of the
    kernel), strings are sequences of code units below 256, the collection
    is a finite map from identifiers to documents. *)

From Stdlib Require Import ZArith Floats SpecFloat Ascii String List Bool Lia.
From Stdlib Require Import DecimalString FloatLemmas.
From stdpp Require Import gmap strings list sorting.

Set Warnings "-register-all,-inexact-float".

Local Open Scope Z_scope.

(** ** Characters and digit strings *)

Module Chars.

Definition code (c : ascii) : Z := Z.of_N (N_of_ascii c).

Definition is_digit (c : ascii) : bool := (48 <=? code c) && (code c <=? 57).

(** Upper and lower case letters that differ by 32: those of ASCII, and
    the accented letters between U+00C0 and U+00FE. *)
Definition is_upper (c : ascii) : bool :=
  ((65 <=? code c) && (code c <=? 90))
  || ((192 <=? code c) && (code c <=? 222) && negb (code c =? 215)).

Definition is_lower (c : ascii) : bool :=
  ((97 <=? code c) && (code c <=? 122))
  || ((224 <=? code c) && (code c <=? 254) && negb (code c =? 247)).

Definition is_letter (c : ascii) : bool :=
  ((65 <=? code c) && (code c <=? 90)) || ((97 <=? code c) && (code c <=? 122)).

(** The characters of [\w]. *)
Definition is_word (c : ascii) : bool :=
  is_digit c || is_letter c || (code c =? 95).

(** Case folding: upper case letters are sent to lower case. *)
Definition to_lower (c : ascii) : ascii :=
  if is_upper c then ascii_of_N (Z.to_N (code c + 32)) else c.

Definition to_upper (c : ascii) : ascii :=
  if is_lower c then ascii_of_N (Z.to_N (code c - 32)) else c.

Definition digit_value (c : ascii) : Z := code c - 48.

(** The number a run of decimal digits denotes. *)
Definition digits_value (ds : list ascii) : Z :=
  fold_left (fun acc c => 10 * acc + digit_value c) ds 0.

(** Decimal digits of a non-negative integer, no leading zero ("0" for 0). *)
Definition digits_of (n : Z) : list ascii :=
  list_ascii_of_string (NilZero.string_of_uint (N.to_uint (Z.to_N n))).

Definition eqb (a b : ascii) : bool := Ascii.eqb a b.

End Chars.

(** ** Number values

    [parseFloat] and [String] go between decimal text and binary64
    values.  Both are defined on the exact rational value of the text or of
    the float, with integer arithmetic only. *)

Module Number.

Definition prec : Z := 53.
Definition emax : Z := 1024.

(** [m * 2^e] rounded to the nearest binary64, ties to even. *)
Definition round_pow2 (m e : Z) : float :=
  SF2Prim (binary_normalize prec emax m e false).

(** [M * 10^E] rounded to the nearest binary64, for [0 <= M].
    The quotient by a power of ten keeps 64 bits and a sticky bit, which is
    enough for the final rounding to 53 bits to be the rounding of the exact
    value.  The two tests on [E] only cut short inputs whose value is above
    the largest or below half the smallest binary64. *)
Definition decimal_value (M E : Z) : float :=
  if M <=? 0 then 0%float
  else if 310 <=? E then infinity
  else if E + (Z.log2 M + 1) / 3 + 1 <=? -330 then 0%float
  else if 0 <=? E then round_pow2 (M * 10 ^ E) 0
  else
    let D := 10 ^ (- E) in
    let s := 64 + Z.log2_up D in
    let q := (M * 2 ^ s) / D in
    let sticky := if (M * 2 ^ s) mod D =? 0 then 0 else 1 in
    round_pow2 (2 * q + sticky) (- s - 1).

(** [isNaN(x)] *)
Definition isNaN (x : float) : bool := is_nan x.

(** [x >= y] on Number values (false when either is NaN). *)
Definition geb (x y : float) : bool := PrimFloat.leb y x.

(** A positive finite float as a fraction [a / b] of positive integers. *)
Definition fraction (m : positive) (e : Z) : Z * Z :=
  if 0 <=? e then (Z.pos m * 2 ^ e, 1) else (Z.pos m, 2 ^ (- e)).

(** [a / b] divided by [10^j], again as a fraction. *)
Definition scale10 (ab : Z * Z) (j : Z) : Z * Z :=
  let '(a, b) := ab in
  if 0 <=? j then (a, b * 10 ^ j) else (a * 10 ^ (- j), b).

(** The least [n], from [lo] upwards, with [a / b < 10^n]. *)
Fixpoint magnitude (fuel : nat) (ab : Z * Z) (n : Z) : Z :=
  match fuel with
  | O => n
  | S fuel' =>
      let '(a, b) := scale10 ab n in
      if a <? b then n else magnitude fuel' ab (n + 1)
  end.

(** Number::toString, step 5: the digits [s] and the exponent [n] with
    [k] as small as possible such that [s * 10^(n-k)] is the Number value,
    the closest to it when several [s] qualify.  For each [k] the two
    [k]-digit candidates around the value are tried. *)
Fixpoint shortest (fuel : nat) (x : float) (ab : Z * Z) (n0 k : Z) : Z * Z :=
  let '(A, B) := scale10 ab (n0 - k) in
  let lo := A / B in
  let r := A mod B in
  let hi := lo + 1 in
  let ok_lo := PrimFloat.eqb (decimal_value lo (n0 - k)) x in
  let ok_hi := PrimFloat.eqb (decimal_value hi (n0 - k)) x in
  let nearer_lo := (2 * r <? B) || ((2 * r =? B) && Z.even lo) in
  let pick_hi := if hi =? 10 ^ k then (hi / 10, n0 + 1) else (hi, n0) in
  match fuel with
  | O => if nearer_lo then (lo, n0) else pick_hi
  | S fuel' =>
      if ok_lo && (negb ok_hi || nearer_lo) then (lo, n0)
      else if ok_hi then pick_hi
      else shortest fuel' x ab n0 (k + 1)
  end.

Definition zeros (n : Z) : list ascii := repeat "0"%char (Z.to_nat n).

(** Number::toString, steps 6 to 10: the layout of digits [ds] with
    exponent [n]. *)
Definition layout (ds : list ascii) (n : Z) : list ascii :=
  let k := Z.of_nat (length ds) in
  if (k <=? n) && (n <=? 21) then ds ++ zeros (n - k)
  else if (0 <? n) && (n <=? 21) then
    take (Z.to_nat n) ds ++ "."%char :: drop (Z.to_nat n) ds
  else if (-6 <? n) && (n <=? 0) then
    "0"%char :: "."%char :: zeros (- n) ++ ds
  else
    let e := n - 1 in
    let sign := if 0 <=? e then "+"%char else "-"%char in
    let mant := match ds with
                | d :: (_ :: _) as rest => d :: "."%char :: rest
                | _ => ds
                end in
    mant ++ "e"%char :: sign :: Chars.digits_of (Z.abs e).

Definition positive_to_chars (x : float) (m : positive) (e : Z) : list ascii :=
  let ab := fraction m e in
  let est := (Z.log2 (Z.pos m) + e) * 30103 / 100000 in
  let n0 := magnitude 6 ab (est - 1) in
  let '(s, n) := shortest 16 x ab n0 1 in
  layout (Chars.digits_of s) n.

(** Number::toString(x), radix 10. *)
Definition to_chars (x : float) : list ascii :=
  match Prim2SF x with
  | S754_nan => list_ascii_of_string "NaN"
  | S754_zero _ => list_ascii_of_string "0"
  | S754_infinity false => list_ascii_of_string "Infinity"
  | S754_infinity true => list_ascii_of_string "-Infinity"
  | S754_finite false m e => positive_to_chars x m e
  | S754_finite true m e => "-"%char :: positive_to_chars (- x)%float m e
  end.

Definition toString (x : float) : string := string_of_list_ascii (to_chars x).

(** The integer part of a finite float, truncated towards zero; [None]
    for NaN and the infinities. *)
Definition truncate (x : float) : option Z :=
  match Prim2SF x with
  | S754_zero _ => Some 0
  | S754_finite s m e =>
      let a := if 0 <=? e then Z.pos m * 2 ^ e else Z.pos m / 2 ^ (- e) in
      Some (if s then - a else a)
  | _ => None
  end.

End Number.

(** ** Errors and the exception monad

    A handler body runs inside [try { ... } catch (err) { ... }]: a
    computation either returns or throws one of the errors below. *)

Inductive path : Type :=
| PName | PMobile | PDate | PMorning | PEvening | PRate
| PTotalLiters | PTotalAmount | P_id.

(** Why a path of the schema fails validation. *)
Inductive failure : Type :=
| Required                       (* the built-in [required] validator *)
| CastFailed                     (* the value set does not cast to the path's type *)
| BelowMin                       (* the built-in [min] validator *)
| Custom (message : string).     (* a [validate] entry of the schema *)

Inductive error : Type :=
| TypeError                                          (* thrown by the language *)
| ValidationError (failures : list (path * failure)) (* Mongoose, on [save] *)
| CastError (p : path)                               (* Mongoose, casting a query *)
| DuplicateKey                                       (* the store, E11000 *)
| RegexError.                                        (* the store, invalid [$regex] *)

Inductive result (A : Type) : Type :=
| Ok (a : A)
| Throw (e : error).

Arguments Ok {A} a.
Arguments Throw {A} e.

#[global] Instance result_ret : MRet result := fun A a => Ok a.

#[global] Instance result_bind : MBind result := fun A B f c =>
  match c with
  | Ok a => f a
  | Throw e => Throw e
  end.

(** ** ECMAScript values and conversions *)

Module JS.

(** What [express.json()] can put in [req.body] and its properties:
    the values of JSON, and [undefined] for a property that is absent. *)
Inductive value : Type :=
| JUndefined
| JNull
| JBool (b : bool)
| JNumber (x : float)
| JString (s : string)
| JArray (elems : list value)
| JObject (props : list (string * value)).

(** Own property [key] of an object built by [JSON.parse]: of duplicate
    keys the last one stays. *)
Fixpoint own (props : list (string * value)) (key : string) : option value :=
  match props with
  | [] => None
  | (k, v) :: rest =>
      match own rest key with
      | Some w => Some w
      | None => if String.eqb k key then Some v else None
      end
  end.

(** [v.key], for a [key] that no prototype defines (the handlers read
    [Name], [Mobile], [Date], [Morning], [Evening] and [Rate]).  Reading a
    property of [undefined] or [null] throws. *)
Definition get (v : value) (key : string) : result value :=
  match v with
  | JUndefined | JNull => Throw TypeError
  | JObject props => Ok (default JUndefined (own props key))
  | _ => Ok JUndefined
  end.

(** [String(v)].  An array is joined with commas, [null] and [undefined]
    elements giving the empty string.  A plain object gives
    ["[object Object]"] through [Object.prototype.toString], unless it has
    an own property [toString]: coming from JSON it is not callable, and
    the conversion throws. *)
Fixpoint String (v : value) : result string :=
  match v with
  | JUndefined => Ok "undefined"%string
  | JNull => Ok "null"%string
  | JBool true => Ok "true"%string
  | JBool false => Ok "false"%string
  | JNumber x => Ok (Number.toString x)
  | JString s => Ok s
  | JArray elems =>
      let elem (x : value) : result string :=
        match x with
        | JUndefined | JNull => Ok ""%string
        | _ => String x
        end in
      (fix join (l : list value) : result string :=
         match l with
         | [] => Ok ""%string
         | [x] => elem x
         | x :: rest =>
             s ← elem x; r ← join rest; Ok (s +:+ "," +:+ r)
         end) elems
  | JObject props =>
      match own props "toString" with
      | Some _ => Throw TypeError
      | None => Ok "[object Object]"%string
      end
  end.

(** [!s] on a string: only the empty string is falsy. *)
Definition falsy (s : string) : bool := String.eqb s "".

(** White space and line terminators that [parseFloat] skips, among the
    code units below 256. *)
Definition is_space (c : ascii) : bool :=
  let n := Chars.code c in
  ((9 <=? n) && (n <=? 13)) || (n =? 32) || (n =? 160).

Fixpoint trim_start (s : list ascii) : list ascii :=
  match s with
  | c :: rest => if is_space c then trim_start rest else s
  | [] => []
  end.

(** The longest run of decimal digits at the head of [s], and what follows. *)
Fixpoint span_digits (s : list ascii) : list ascii * list ascii :=
  match s with
  | c :: rest =>
      if Chars.is_digit c
      then let '(ds, tl) := span_digits rest in (c :: ds, tl)
      else ([], s)
  | [] => ([], [])
  end.

Definition take_sign (s : list ascii) : bool * list ascii :=
  match s with
  | c :: rest =>
      if Chars.eqb c "+" then (false, rest)
      else if Chars.eqb c "-" then (true, rest)
      else (false, s)
  | [] => (false, s)
  end.

Fixpoint starts_with (p s : list ascii) : bool :=
  match p, s with
  | [], _ => true
  | a :: p', b :: s' => Chars.eqb a b && starts_with p' s'
  | _ :: _, [] => false
  end.

Definition is_exp_mark (c : ascii) : bool :=
  Chars.eqb c "e" || Chars.eqb c "E".

(** The digits after a decimal point at the head of [s], and what follows. *)
Definition fraction (s : list ascii) : list ascii * list ascii :=
  match s with
  | c :: rest => if Chars.eqb c "." then span_digits rest else ([], s)
  | [] => ([], s)
  end.

(** The exponent part at the head of [s]: [e] or [E], a sign if any, and
    at least one digit; 0 when there is none. *)
Definition exponent (s : list ascii) : Z :=
  match s with
  | c :: rest =>
      if is_exp_mark c then
        let '(neg, r) := take_sign rest in
        let '(ds, _) := span_digits r in
        match ds with
        | [] => 0
        | _ => if neg then - Chars.digits_value ds else Chars.digits_value ds
        end
      else 0
  | [] => 0
  end.

(** The Number value of the longest prefix of [s] that is a
    StrUnsignedDecimalLiteral, NaN when no prefix is one. *)
Definition parse_unsigned (s : list ascii) : float :=
  if starts_with (list_ascii_of_string "Infinity") s then infinity
  else
    let '(ip, s2) := span_digits s in
    let '(fp, s3) := fraction s2 in
    match ip ++ fp with
    | [] => nan
    | ds =>
        Number.decimal_value (Chars.digits_value ds)
          (exponent s3 - Z.of_nat (length fp))
    end.

Definition signed (neg : bool) (x : float) : float :=
  if neg then (- x)%float else x.

(** The Number value of the longest prefix of [s] that is a
    StrDecimalLiteral, NaN when no prefix is one. *)
Definition parse_decimal (s : list ascii) : float :=
  let '(neg, s1) := take_sign s in signed neg (parse_unsigned s1).

(** [parseFloat(v)] *)
Definition parseFloat (v : value) : result float :=
  s ← String v; Ok (parse_decimal (trim_start (list_ascii_of_string s))).

(** TimeClip of a Number: the time value of [new Date(x)]; [None] stands
    for NaN, the time value of an Invalid Date. *)
Definition TimeClip (x : float) : option Z :=
  match Number.truncate x with
  | Some t => if Z.abs t <=? 8640000000000000 then Some t else None
  | None => None
  end.

Section Date.

(** [Date.parse] on text.  The language fixes it on the ISO format only and
    leaves the rest to the implementation, so it is a parameter here. *)
Variable Date_parse : string -> option Z.

(** [new Date(v)]: the time value of the Date object built.
    ToPrimitive sends an array or an object to the same text as [String]. *)
Definition Date (v : value) : result (option Z) :=
  match v with
  | JUndefined => Ok None
  | JNull => Ok (Some 0)
  | JBool b => Ok (Some (if b then 1 else 0))
  | JNumber x => Ok (TimeClip x)
  | JString s => Ok (Date_parse s)
  | JArray _ | JObject _ => s ← String v; Ok (Date_parse s)
  end.

End Date.

End JS.

(** ** Regular expressions

    The [Mobile] validator of the schema is a regular expression literal,
    and the two read handlers hand the query text to the store as a
    [$regex] pattern, which the store compiles with PCRE.  This module
    covers the part of the pattern language that both share: literal
    characters, [.], the escapes [\d \D \w \W \s \S \n \t \r \f] and
    escaped punctuation, bracket classes with ranges and negation, groups
    [( )] and [(?: )], alternation, the quantifiers [* + ? {n} {n,} {n,m}]
    (also lazy), and the anchors [^] and [$].  [compile] answers [None] on
    a malformed pattern, and also on the constructs left out
    (backreferences, lookaround, named groups, inline options, possessive
    quantifiers, POSIX classes, and the other alphanumeric escapes, such
    as [\b], [\A] and [\x41]), which the store accepts: the statements
    below rely on [compile] for the patterns it is proved on, literal
    texts with or without [^] before them and groups left open. *)

Module Regex.

(** Members of a bracket class. *)
Inductive item : Type :=
| IChar (c : ascii)
| IRange (lo hi : ascii)
| IDigit (neg : bool)
| IWord (neg : bool)
| ISpace (neg : bool).

Inductive regex : Type :=
| Eps
| Chr (c : ascii)
| Any
| Class (neg : bool) (items : list item)
| Bol
| Eol
| Seq (r1 r2 : regex)
| Alt (r1 r2 : regex)
| Star (r : regex).

(** Where the two engines differ on the constructs above: the characters
    [.] leaves out, those of [\s], and whether [$] also matches before a
    final newline. *)
Inductive flavour : Type := ECMAScript | PCRE.

(** The [i] flag or option, and the engine that runs the pattern. *)
Record options : Type := { ignore_case : bool; engine : flavour }.

(** *** Matching *)

Definition chr_eq (ci : bool) (a c : ascii) : bool :=
  if ci then Chars.eqb (Chars.to_lower a) (Chars.to_lower c) else Chars.eqb a c.

Definition between (lo hi c : ascii) : bool :=
  (Chars.code lo <=? Chars.code c) && (Chars.code c <=? Chars.code hi).

(** The characters of [\s]: ECMAScript adds the no-break space. *)
Definition is_space (fl : flavour) (c : ascii) : bool :=
  ((9 <=? Chars.code c) && (Chars.code c <=? 13)) || (Chars.code c =? 32)
  || match fl with
     | ECMAScript => Chars.code c =? 160
     | PCRE => false
     end.

Definition item_match (o : options) (c : ascii) (it : item) : bool :=
  match it with
  | IChar a => chr_eq (ignore_case o) a c
  | IRange lo hi =>
      between lo hi c
      || (ignore_case o
          && (between lo hi (Chars.to_lower c) || between lo hi (Chars.to_upper c)))
  | IDigit neg => xorb neg (Chars.is_digit c)
  | IWord neg => xorb neg (Chars.is_word c)
  | ISpace neg => xorb neg (is_space (engine o) c)
  end.

Definition dot_match (fl : flavour) (c : ascii) : bool :=
  match fl with
  | PCRE => negb (Chars.code c =? 10)
  | ECMAScript => negb ((Chars.code c =? 10) || (Chars.code c =? 13))
  end.

Definition at_end (fl : flavour) (s : list ascii) : bool :=
  match s, fl with
  | [], _ => true
  | [c], PCRE => Chars.code c =? 10
  | _, _ => false
  end.

(** [rmatch o r bol s k]: some match of [r] at the head of [s] leaves a
    rest that the continuation [k] accepts.  [bol] tells whether [s] is
    the whole subject, for [^].  An iteration of [Star] that consumes
    nothing is cut, so the length of [s] bounds the iterations. *)
Fixpoint rmatch (o : options) (r : regex) (bol : bool) (s : list ascii)
    (k : bool -> list ascii -> bool) {struct r} : bool :=
  match r with
  | Eps => k bol s
  | Chr a =>
      match s with
      | c :: s' => chr_eq (ignore_case o) a c && k false s'
      | [] => false
      end
  | Any =>
      match s with
      | c :: s' => dot_match (engine o) c && k false s'
      | [] => false
      end
  | Class neg items =>
      match s with
      | c :: s' => xorb neg (existsb (item_match o c) items) && k false s'
      | [] => false
      end
  | Bol => bol && k bol s
  | Eol => at_end (engine o) s && k bol s
  | Seq r1 r2 => rmatch o r1 bol s (fun b s' => rmatch o r2 b s' k)
  | Alt r1 r2 => rmatch o r1 bol s k || rmatch o r2 bol s k
  | Star r1 =>
      (fix star (n : nat) (b : bool) (s : list ascii) {struct n} : bool :=
         k b s ||
         match n with
         | O => false
         | S n' =>
             rmatch o r1 b s
               (fun b' s' => (length s' <? length s)%nat && star n' b' s')
         end) (length s) bol s
  end.

(** A match that starts at the head of [s] or further on. *)
Fixpoint search (o : options) (r : regex) (bol : bool) (s : list ascii) : bool :=
  rmatch o r bol s (fun _ _ => true) ||
  match s with
  | [] => false
  | _ :: s' => search o r false s'
  end.

(** [re.test(s)]: the pattern matches somewhere in [s]. *)
Definition test (o : options) (r : regex) (s : string) : bool :=
  search o r true (list_ascii_of_string s).

(** *** Patterns *)

Definition isc (c : ascii) (d : ascii) : bool := Chars.eqb c d.

(** The characters a pattern does not read as themselves. *)
Definition is_meta (c : ascii) : bool :=
  isc c "\" || isc c "^" || isc c "$" || isc c "." || isc c "|" || isc c "?"
  || isc c "*" || isc c "+" || isc c "(" || isc c ")" || isc c "[" || isc c "]"
  || isc c "{" || isc c "}".

Fixpoint power (a : regex) (n : nat) (tail : regex) : regex :=
  match n with
  | O => tail
  | S n' => Seq a (power a n' tail)
  end.

Fixpoint upto (a : regex) (n : nat) : regex :=
  match n with
  | O => Eps
  | S n' => Alt (Seq a (upto a n')) Eps
  end.

(** [a{n,}] and [a{n,m}] *)
Definition repetition (a : regex) (n : nat) (m : option nat) : regex :=
  match m with
  | None => power a n (Star a)
  | Some m => power a n (upto a (m - n))
  end.

Inductive bounds : Type :=
| NoBounds                                   (* the brace is a literal *)
| BadBounds                                  (* out of order, or too big *)
| Bounds (n : nat) (m : option nat) (rest : list ascii).

Definition count (ds : list ascii) : option nat :=
  let n := Chars.digits_value ds in
  if n <=? 65535 then Some (Z.to_nat n) else None.

(** What follows an opening brace, read as the bounds of a quantifier. *)
Definition parse_bounds (s : list ascii) : bounds :=
  let '(ds, s1) := JS.span_digits s in
  match ds, s1 with
  | [], _ => NoBounds
  | _, c :: s2 =>
      if isc c "}" then
        match count ds with
        | Some n => Bounds n (Some n) s2
        | None => BadBounds
        end
      else if isc c "," then
        let '(es, s3) := JS.span_digits s2 in
        match s3 with
        | d :: s4 =>
            if isc d "}" then
              match es, count ds, count es with
              | [], Some n, _ => Bounds n None s4
              | _, Some n, Some m =>
                  if (n <=? m)%nat then Bounds n (Some m) s4 else BadBounds
              | _, _, _ => BadBounds
              end
            else NoBounds
        | [] => NoBounds
        end
      else NoBounds
  | _, [] => NoBounds
  end.

Definition is_quantifier (s : list ascii) : bool :=
  match s with
  | c :: s' =>
      isc c "*" || isc c "+" || isc c "?"
      || (isc c "{" && match parse_bounds s' with NoBounds => false | _ => true end)
  | [] => false
  end.

(** After a quantifier: [?] makes it lazy, which matches the same
    subjects; a second quantifier is refused. *)
Definition after_quantifier (r : regex) (s : list ascii) : option (regex * list ascii) :=
  match s with
  | c :: s' =>
      if isc c "?" then (if is_quantifier s' then None else Some (r, s'))
      else if is_quantifier s then None
      else Some (r, s)
  | [] => Some (r, s)
  end.

(** The quantifier, if any, that follows the atom [a]. *)
Definition parse_quantifier (a : regex) (s : list ascii) : option (regex * list ascii) :=
  match s with
  | c :: s' =>
      if isc c "*" then after_quantifier (Star a) s'
      else if isc c "+" then after_quantifier (Seq a (Star a)) s'
      else if isc c "?" then after_quantifier (Alt a Eps) s'
      else if isc c "{" then
        match parse_bounds s' with
        | NoBounds => Some (a, s)
        | BadBounds => None
        | Bounds n m rest => after_quantifier (repetition a n m) rest
        end
      else Some (a, s)
  | [] => Some (a, s)
  end.

(** The escape [\c] as a class member. *)
Definition escape_item (c : ascii) : option item :=
  if isc c "d" then Some (IDigit false)
  else if isc c "D" then Some (IDigit true)
  else if isc c "w" then Some (IWord false)
  else if isc c "W" then Some (IWord true)
  else if isc c "s" then Some (ISpace false)
  else if isc c "S" then Some (ISpace true)
  else if isc c "n" then Some (IChar (ascii_of_nat 10))
  else if isc c "t" then Some (IChar (ascii_of_nat 9))
  else if isc c "r" then Some (IChar (ascii_of_nat 13))
  else if isc c "f" then Some (IChar (ascii_of_nat 12))
  else if Chars.is_word c && negb (isc c "_") then None
  else Some (IChar c).

Definition escape_atom (c : ascii) : option regex :=
  match escape_item c with
  | Some (IChar a) => Some (Chr a)
  | Some it => Some (Class false [it])
  | None => None
  end.

(** The members of a bracket class up to the closing bracket. *)
Fixpoint parse_items (fuel : nat) (s : list ascii) : option (list item * list ascii) :=
  match fuel, s with
  | O, _ | _, [] => None
  | S f, c :: s1 =>
      if isc c "]" then Some ([], s1)
      else if isc c "[" && match s1 with
                          | d :: _ => isc d ":" || isc d "=" || isc d "."
                          | [] => false
                          end then None
      else if isc c "\" then
        match s1 with
        | e :: s2 =>
            it ← escape_item e;
            '(its, s3) ← parse_items f s2;
            Some (it :: its, s3)
        | [] => None
        end
      else
        match s1 with
        | d :: hi :: s3 =>
            if isc d "-" && negb (isc hi "]") then
              if isc hi "\" || isc hi "[" then None
              else if Chars.code c <=? Chars.code hi then
                '(its, s4) ← parse_items f s3;
                Some (IRange c hi :: its, s4)
              else None
            else
              '(its, s4) ← parse_items f s1;
              Some (IChar c :: its, s4)
        | _ =>
            '(its, s4) ← parse_items f s1;
            Some (IChar c :: its, s4)
        end
  end.

(** A bracket class, after its opening bracket: [^] negates, and a
    closing bracket that comes first is a member. *)
Definition parse_class (s : list ascii) : option (regex * list ascii) :=
  let '(neg, s1) := match s with
                    | c :: s' => if isc c "^" then (true, s') else (false, s)
                    | [] => (false, s)
                    end in
  match s1 with
  | c :: s2 =>
      if isc c "]" then
        '(its, s3) ← parse_items (length s2) s2;
        Some (Class neg (IChar c :: its), s3)
      else
        '(its, s3) ← parse_items (length s1) s1;
        Some (Class neg its, s3)
  | [] => None
  end.

(** What a group opens with: nothing, or [?:]; any other [(?] is left out. *)
Definition group_open (s : list ascii) : option (list ascii) :=
  match s with
  | c :: s1 =>
      if isc c "?" then
        match s1 with
        | d :: s2 => if isc d ":" then Some s2 else None
        | [] => None
        end
      else Some s
  | [] => Some s
  end.

(** Alternatives, sequences and atoms, by recursive descent.  Every call
    takes one unit of [fuel]; [compile] gives enough of it for the depth
    of the descent, which the length of the pattern bounds.  A quantifier
    where an atom is due, with nothing to repeat, is refused. *)
Fixpoint parse_alt (fuel : nat) (s : list ascii) : option (regex * list ascii) :=
  match fuel with
  | O => None
  | S f =>
      '(r1, s1) ← parse_seq f s;
      match s1 with
      | c :: s2 =>
          if isc c "|" then '(r2, s3) ← parse_alt f s2; Some (Alt r1 r2, s3)
          else Some (r1, s1)
      | [] => Some (r1, s1)
      end
  end
with parse_seq (fuel : nat) (s : list ascii) : option (regex * list ascii) :=
  match fuel with
  | O => None
  | S f =>
      match s with
      | [] => Some (Eps, s)
      | c :: s1 =>
          if isc c "|" || isc c ")" then Some (Eps, s)
          else
            '(a, s2) ← parse_atom f c s1;
            '(q, s3) ←
              match a with
              | Bol | Eol => if is_quantifier s2 then None else Some (a, s2)
              | _ => parse_quantifier a s2
              end;
            '(r, s4) ← parse_seq f s3;
            Some (Seq q r, s4)
      end
  end
with parse_atom (fuel : nat) (c : ascii) (s : list ascii) : option (regex * list ascii) :=
  match fuel with
  | O => None
  | S f =>
      if isc c "(" then
        s1 ← group_open s;
        '(r, s2) ← parse_alt f s1;
        match s2 with
        | d :: s3 => if isc d ")" then Some (r, s3) else None
        | [] => None
        end
      else if isc c "[" then parse_class s
      else if isc c "\" then
        match s with
        | e :: s1 => a ← escape_atom e; Some (a, s1)
        | [] => None
        end
      else if isc c "." then Some (Any, s)
      else if isc c "^" then Some (Bol, s)
      else if isc c "$" then Some (Eol, s)
      else if is_quantifier (c :: s) then None
      else Some (Chr c, s)
  end.

(** The pattern [p] compiled: [None] when it is refused. *)
Definition compile (p : string) : option regex :=
  let s := list_ascii_of_string p in
  match parse_alt (3 * length s + 3) s with
  | Some (r, []) => Some r
  | _ => None
  end.

End Regex.

(** ** An instance of [Date.parse]

    The date-only form [YYYY-MM-DD] of the ISO format, read as UTC.  The
    handlers below are defined and verified for every [Date_parse]; this
    one serves in the examples, on texts that an engine reads the same.
    An engine reads more texts as dates than this one: date-time forms,
    and days past the end of a month. *)

Module IsoDate.

Definition is_leap (y : Z) : bool :=
  (y mod 4 =? 0) && (negb (y mod 100 =? 0) || (y mod 400 =? 0)).

Definition days_in_month (y m : Z) : Z :=
  if m =? 2 then (if is_leap y then 29 else 28)
  else if (m =? 4) || (m =? 6) || (m =? 9) || (m =? 11) then 30
  else 31.

(** Days from 1970-01-01 to the civil date [y]-[m]-[d]. *)
Definition days_from_civil (y m d : Z) : Z :=
  let y' := if m <=? 2 then y - 1 else y in
  let era := y' / 400 in
  let yoe := y' - era * 400 in
  let mp := (m + 9) mod 12 in
  let doy := (153 * mp + 2) / 5 + d - 1 in
  let doe := yoe * 365 + yoe / 4 - yoe / 100 + doy in
  era * 146097 + doe - 719468.

Definition ms_per_day : Z := 86400000.

Definition parse (s : string) : option Z :=
  match list_ascii_of_string s with
  | [y1; y2; y3; y4; h1; m1; m2; h2; d1; d2] =>
      if forallb Chars.is_digit [y1; y2; y3; y4; m1; m2; d1; d2]
         && Chars.eqb h1 "-" && Chars.eqb h2 "-"
      then
        let y := Chars.digits_value [y1; y2; y3; y4] in
        let m := Chars.digits_value [m1; m2] in
        let d := Chars.digits_value [d1; d2] in
        if (1 <=? m) && (m <=? 12) && (1 <=? d) && (d <=? days_in_month y m)
        then Some (days_from_civil y m d * ms_per_day)
        else None
      else None
  | _ => None
  end.

End IsoDate.

(** ** The [Bill] model *)

(** An [ObjectId] is a 12-byte value, written as 24 hexadecimal digits. *)
Abbreviation ObjectId := N.

(** The paths of a stored document other than [_id].  [Date] and
    [CreatedAt] are time values in milliseconds since the epoch. *)
Record Bill : Type := {
  Name : string;
  Mobile : string;
  Date : Z;
  Morning : float;
  Evening : float;
  Rate : float;
  TotalLiters : float;
  TotalAmount : float;
  CreatedAt : Z
}.

(** The collection holds one document for an [_id]: a finite map from
    [_id] to the other paths.  A document is a pair of the two. *)
Abbreviation collection := (gmap N Bill).

Abbreviation document := (N * Bill)%type.

(** The document [new Bill()] gives once the handler has assigned its
    paths: what was assigned, valid or not ([None] is an Invalid Date),
    with the [_id] and the [CreatedAt] default drawn at construction. *)
Module Doc.

Record t : Type := {
  _id : ObjectId;
  Name : string;
  Mobile : string;
  Date : option Z;
  Morning : float;
  Evening : float;
  Rate : float;
  TotalLiters : float;
  TotalAmount : float;
  CreatedAt : Z
}.

End Doc.

(** What a request draws from its environment: the [ObjectId] generated
    for the new document and the clock, [Date.now()]. *)
Record env : Type := { fresh_id : ObjectId; now : Z }.

Module Schema.

Definition Mobile_pattern : string := "^\d{10}$".

Definition script : Regex.options :=
  {| Regex.ignore_case := false; Regex.engine := Regex.ECMAScript |}.

(** [v => /^\d{10}$/.test(v)] *)
Definition Mobile_validator (v : string) : bool :=
  match Regex.compile Mobile_pattern with
  | Some r => Regex.test script r v
  | None => false
  end.

(** [v => !isNaN(new Date(v).getTime())], on the time value of [v] *)
Definition Date_validator (v : option Z) : bool :=
  match v with
  | Some _ => true
  | None => false
  end.

(** The binary64 nearest to 0.01, the [min] of [Rate]. *)
Definition Rate_min : float := 0x1.47ae147ae147bp-7%float.

(** [{ type: String, required: true }], with the [validate] entry if any:
    a required string is not empty. *)
Definition check_String (validator : option (string -> bool * string)) (v : string)
  : string + failure :=
  if JS.falsy v then inr Required
  else match validator with
       | Some f => let '(ok, message) := f v in
                   if ok then inl v else inr (Custom message)
       | None => inl v
       end.

(** [{ type: Date, required: true, validate }]: an Invalid Date does not
    cast. *)
Definition check_Date (v : option Z) : Z + failure :=
  match v with
  | None => inr CastFailed
  | Some t => if Date_validator v then inl t else inr (Custom "Invalid date")
  end.

(** [{ type: Number, required: true, min }]: NaN does not cast, and the
    [min] validator wants [v >= min]. *)
Definition check_Number (min : option float) (v : float) : float + failure :=
  if Number.isNaN v then inr CastFailed
  else match min with
       | Some m => if Number.geb v m then inl v else inr BelowMin
       | None => inl v
       end.

Definition failures {A : Type} (p : path) (c : A + failure) : list (path * failure) :=
  match c with
  | inl _ => []
  | inr f => [(p, f)]
  end.

(** [doc.validate()]: every path of the schema is checked, and the
    failures come together in one [ValidationError].  They are listed
    here in the order of the schema; the order in which the message of
    the error names them is not part of this model. *)
Definition validate (d : Doc.t) : result Bill :=
  let name := check_String None (Doc.Name d) in
  let mobile :=
    check_String
      (Some (fun v => (Mobile_validator v, "Mobile number must be 10 digits"%string)))
      (Doc.Mobile d) in
  let date := check_Date (Doc.Date d) in
  let morning := check_Number (Some 0%float) (Doc.Morning d) in
  let evening := check_Number (Some 0%float) (Doc.Evening d) in
  let rate := check_Number (Some Rate_min) (Doc.Rate d) in
  let liters := check_Number None (Doc.TotalLiters d) in
  let amount := check_Number None (Doc.TotalAmount d) in
  match name, mobile, date, morning, evening, rate, liters, amount with
  | inl n, inl m, inl t, inl mo, inl ev, inl ra, inl tl, inl ta =>
      Ok {| Name := n; Mobile := m; Date := t;
            Morning := mo; Evening := ev; Rate := ra;
            TotalLiters := tl; TotalAmount := ta;
            CreatedAt := Doc.CreatedAt d |}
  | _, _, _, _, _, _, _, _ =>
      Throw (ValidationError
               (failures PName name ++ failures PMobile mobile
                ++ failures PDate date ++ failures PMorning morning
                ++ failures PEvening evening ++ failures PRate rate
                ++ failures PTotalLiters liters ++ failures PTotalAmount amount))
  end.

End Schema.

(** ** The store *)

Module Store.

(** [insertOne]: the [_id] index is unique. *)
Definition insert (i : ObjectId) (b : Bill) (db : collection) : result collection :=
  match db !! i with
  | Some _ => Throw DuplicateKey
  | None => Ok (<[i := b]> db)
  end.

(** [doc.save()] on a new document: validation, then the insertion. *)
Definition save (d : Doc.t) (db : collection) : result (document * collection) :=
  b ← Schema.validate d;
  db' ← insert (Doc._id d) b db;
  Ok ((Doc._id d, b), db').

(** The filters the handlers build: [{}] and
    [{ $or: [{ Name: { $regex: query, $options: 'i' } },
             { Mobile: { $regex: query } }] }]. *)
Inductive filter : Type :=
| All
| NameOrMobile (query : string).

Definition pcre (ci : bool) : Regex.options :=
  {| Regex.ignore_case := ci; Regex.engine := Regex.PCRE |}.

Definition matches (r : Regex.regex) (d : document) : bool :=
  Regex.test (pcre true) r (Name d.2) || Regex.test (pcre false) r (Mobile d.2).

Definition documents (db : collection) : list document := map_to_list db.

(** [Bill.find(filter)]: the store refuses a pattern that does not compile. *)
Definition find (f : filter) (db : collection) : result (list document) :=
  match f with
  | All => Ok (documents db)
  | NameOrMobile query =>
      match Regex.compile query with
      | Some r => Ok (List.filter (matches r) (documents db))
      | None => Throw RegexError
      end
  end.

(** The order of [.sort({ Date: -1 })]: later dates first.  The order
    among equal dates is the store's to choose; here it is the one a merge
    sort of the listing of the map gives. *)
Definition Date_desc (a b : document) : Prop := Date b.2 <= Date a.2.

#[global] Instance Date_desc_dec (a b : document) : Decision (Date_desc a b) :=
  Z_le_dec (Date b.2) (Date a.2).

Definition sort (bs : list document) : list document := merge_sort Date_desc bs.

Definition hex_value (c : ascii) : option Z :=
  if Chars.is_digit c then Some (Chars.code c - 48)
  else if (97 <=? Chars.code c) && (Chars.code c <=? 102) then Some (Chars.code c - 87)
  else if (65 <=? Chars.code c) && (Chars.code c <=? 70) then Some (Chars.code c - 55)
  else None.

Fixpoint hex_number (acc : Z) (s : list ascii) : option Z :=
  match s with
  | [] => Some acc
  | c :: rest => d ← hex_value c; hex_number (16 * acc + d) rest
  end.

(** The cast of a path parameter to an [ObjectId]: 24 hexadecimal digits.
    (Older versions of the driver also took any text of 12 bytes; the
    statements about [DELETE] go by cases on this cast.) *)
Definition castObjectId (id : string) : option ObjectId :=
  let s := list_ascii_of_string id in
  if (length s =? 24)%nat then Z.to_N <$> hex_number 0 s else None.

(** [Bill.findByIdAndDelete(id)]: the document removed, [None] for
    [null] when there is none. *)
Definition findByIdAndDelete (id : string) (db : collection)
  : result (option document * collection) :=
  match castObjectId id with
  | None => Throw (CastError P_id)
  | Some i =>
      match db !! i with
      | Some b => Ok (Some (i, b), delete i db)
      | None => Ok (None, db)
      end
  end.

End Store.

(** ** Responses *)

(** The [error] member of an error body: a literal of the source, or the
    [message] of the error caught. *)
Inductive message : Type :=
| Text (s : string)
| MessageOf (e : error).

Inductive json : Type :=
| JsonBill (b : document)
| JsonBills (bs : list document)
| JsonReceived (msg : message)
    (Name Mobile : string) (Date : option Z) (Morning Evening Rate : float)
| JsonDetails (msg : message) (details : error)
| JsonError (msg : message)
| JsonMessage (text : string).

Record response : Type := { status : Z; body : json }.

(** [err.message.includes('validation failed')]: the message of a
    Mongoose [ValidationError] reads "Bill validation failed: ...", and the
    messages of the other errors do not hold the phrase. *)
Definition message_includes_validation_failed (e : error) : bool :=
  match e with
  | ValidationError _ => true
  | _ => false
  end.

(** ** The route handlers *)

Section Handlers.

Variable Date_parse : string -> option Z.

(** [POST /api/bills] *)
Definition post_api_bills (e : env) (rawBody : JS.value) (db : collection)
  : response * collection :=
  let try : result (response * collection) :=
    name ← JS.get rawBody "Name" ≫= JS.String;
    mobile ← JS.get rawBody "Mobile" ≫= JS.String;
    date ← JS.get rawBody "Date" ≫= JS.Date Date_parse;
    morning ← JS.get rawBody "Morning" ≫= JS.parseFloat;
    evening ← JS.get rawBody "Evening" ≫= JS.parseFloat;
    rate ← JS.get rawBody "Rate" ≫= JS.parseFloat;
    (* a Date object is truthy, so [!date] is false *)
    if JS.falsy name || JS.falsy mobile || false
       || Number.isNaN morning || Number.isNaN evening || Number.isNaN rate
    then
      Ok ({| status := 400;
             body := JsonReceived (Text "Missing or invalid required fields")
                       name mobile date morning evening rate |}, db)
    else
      let bill :=
        {| Doc._id := fresh_id e;
           Doc.CreatedAt := now e;
           Doc.Name := name;
           Doc.Mobile := mobile;
           Doc.Date := date;
           Doc.Morning := morning;
           Doc.Evening := evening;
           Doc.Rate := rate;
           Doc.TotalLiters := (morning + evening)%float;
           Doc.TotalAmount := ((morning + evening) * rate)%float |} in
      '(saved, db') ← Store.save bill db;
      Ok ({| status := 201; body := JsonBill saved |}, db')
  in
  match try with
  | Ok r => r
  | Throw err =>
      ({| status := 400;
          body := JsonDetails
                    (if message_includes_validation_failed err
                     then MessageOf err
                     else Text "Failed to create bill")
                    err |}, db)
  end.

(** [req.query.query] is the text of the parameter, [None] when the
    request has none; as a condition, a parameter that is absent or empty
    is falsy.  (A parameter given several times or with brackets, which
    the query parser turns into an array or an object, is outside this
    model.) *)
Definition truthy (query : option string) : option string :=
  match query with
  | Some q => if JS.falsy q then None else Some q
  | None => None
  end.

(** [GET /api/bills] *)
Definition get_api_bills (query : option string) (db : collection) : response :=
  let filter :=
    match truthy query with
    | Some q => Store.NameOrMobile q
    | None => Store.All
    end in
  match bills ← Store.find filter db; Ok (Store.sort bills) with
  | Ok bills => {| status := 200; body := JsonBills bills |}
  | Throw err => {| status := 500; body := JsonError (Text "Failed to fetch bills") |}
  end.

(** [GET /api/bills/search] *)
Definition get_api_bills_search (query : option string) (db : collection) : response :=
  match truthy query with
  | None => {| status := 400; body := JsonError (Text "Search query required") |}
  | Some q =>
      match bills ← Store.find (Store.NameOrMobile q) db; Ok (Store.sort bills) with
      | Ok bills => {| status := 200; body := JsonBills bills |}
      | Throw err => {| status := 500; body := JsonError (Text "Search failed") |}
      end
  end.

(** [DELETE /api/bills/:id] *)
Definition delete_api_bills (id : string) (db : collection) : response * collection :=
  match Store.findByIdAndDelete id db with
  | Ok (Some bill, db') =>
      ({| status := 200; body := JsonMessage "Bill deleted successfully" |}, db')
  | Ok (None, db') =>
      ({| status := 404; body := JsonError (Text "Bill not found") |}, db')
  | Throw err =>
      ({| status := 500; body := JsonError (MessageOf err) |}, db)
  end.

End Handlers.

(** ** The application

    The four routes of the application.  The requests are served one
    after another, each on the collection the one before left. *)
Inductive req : Type :=
| PostBill (e : env) (rawBody : JS.value)
| GetBills (query : option string)
| SearchBills (query : option string)
| DeleteBill (id : string).

Section App.

Variable Date_parse : string -> option Z.

Definition handle (r : req) (db : collection) : response * collection :=
  match r with
  | PostBill e rawBody => post_api_bills Date_parse e rawBody db
  | GetBills query => (get_api_bills query db, db)
  | SearchBills query => (get_api_bills_search query db, db)
  | DeleteBill id => delete_api_bills id db
  end.

Fixpoint serve (rs : list req) (db : collection) : list response * collection :=
  match rs with
  | [] => ([], db)
  | r :: rest =>
      let '(res, db1) := handle r db in
      let '(ress, db2) := serve rest db1 in
      (res :: ress, db2)
  end.

End App.

(** * Specification vocabulary

    The notions the statements below are written with: what the
    specification calls a substring, a text of ten digits, a numeric
    prefix; and the data of the examples. *)

(** [q] occurs in [s]: some text before, [q], some text after. *)
Definition substring (q s : list ascii) : Prop :=
  exists pre post, s = pre ++ q ++ post.

Definition fold_case (s : list ascii) : list ascii := map Chars.to_lower s.

Definition contains (q s : string) : Prop :=
  substring (list_ascii_of_string q) (list_ascii_of_string s).

Definition contains_ci (q s : string) : Prop :=
  substring (fold_case (list_ascii_of_string q)) (fold_case (list_ascii_of_string s)).

(** The bills a query selects, in the words of the specification: the
    [Name] holds the query whatever the case of the letters, or the
    [Mobile] holds it as it is. *)
Definition selects (q : string) (d : document) : Prop :=
  contains_ci q (Name d.2) \/ contains q (Mobile d.2).

(** A query that is not empty and in which every character stands for
    itself as a pattern. *)
Definition literal_query (q : string) : Prop :=
  q <> ""%string /\ Forall (fun c => Regex.is_meta c = false) (list_ascii_of_string q).

(** [q] is at the head of [s], characters compared with [eq]. *)
Fixpoint prefix_by (eq : ascii -> ascii -> bool) (q s : list ascii) : bool :=
  match q, s with
  | [], _ => true
  | a :: q', c :: s' => eq a c && prefix_by eq q' s'
  | _ :: _, [] => false
  end.

(** [q] occurs in [s], decided from left to right. *)
Fixpoint occurs (eq : ascii -> ascii -> bool) (q s : list ascii) : bool :=
  prefix_by eq q s ||
  match s with
  | [] => false
  | _ :: s' => occurs eq q s'
  end.

(** The pattern that reads the characters [q] one by one. *)
Definition lits (q : list ascii) : Regex.regex :=
  foldr (fun c r => Regex.Seq (Regex.Chr c) r) Regex.Eps q.

Definition digit_class : Regex.regex := Regex.Class false [Regex.IDigit false].

(** Exactly [n] characters, all of them decimal digits. *)
Fixpoint digits_exactly (n : nat) (s : list ascii) : bool :=
  match n, s with
  | O, [] => true
  | S n', c :: s' => Chars.is_digit c && digits_exactly n' s'
  | _, _ => false
  end.

(** A text of exactly ten decimal digits. *)
Definition ten_digits (v : string) : Prop :=
  length (list_ascii_of_string v) = 10%nat /\
  Forall (fun c => Chars.is_digit c = true) (list_ascii_of_string v).

(** The grammar of StrDecimalLiteral: a sign if any, then [Infinity], or
    digits with a fraction and an exponent part if any. *)
Definition all_digits (ds : list ascii) : Prop :=
  Forall (fun c => Chars.is_digit c = true) ds.

Inductive sign_chars : list ascii -> Prop :=
| sign_none : sign_chars []
| sign_plus : sign_chars ["+"%char]
| sign_minus : sign_chars ["-"%char].

Inductive exponent_chars : list ascii -> Prop :=
| exponent_none : exponent_chars []
| exponent_some (mark : ascii) (sg ds : list ascii) :
    JS.is_exp_mark mark = true -> sign_chars sg -> all_digits ds -> ds <> [] ->
    exponent_chars (mark :: sg ++ ds).

Inductive unsigned_literal : list ascii -> Prop :=
| literal_Infinity : unsigned_literal (list_ascii_of_string "Infinity")
| literal_integer (ip ex : list ascii) :
    all_digits ip -> ip <> [] -> exponent_chars ex ->
    unsigned_literal (ip ++ ex)
| literal_fraction (ip fp ex : list ascii) :
    all_digits ip -> all_digits fp -> ip ++ fp <> [] -> exponent_chars ex ->
    unsigned_literal (ip ++ "."%char :: fp ++ ex).

Inductive StrDecimalLiteral : list ascii -> Prop :=
| literal_signed (sg u : list ascii) :
    sign_chars sg -> unsigned_literal u -> StrDecimalLiteral (sg ++ u).

(** Text that cannot carry a literal on: no digit in it at all, or a
    first character that is no digit, no decimal point and no exponent
    mark. *)
Definition non_numeric (t : list ascii) : Prop :=
  Forall (fun c => Chars.is_digit c = false) t \/
  exists c t', t = c :: t' /\ Chars.is_digit c = false /\
               Chars.eqb c "." = false /\ JS.is_exp_mark c = false.

(** No digit at the head. *)
Definition stops (s : list ascii) : Prop :=
  match s with
  | [] => True
  | c :: _ => Chars.is_digit c = false
  end.

(** The value of a literal with integer digits [ip], fraction digits [fp]
    and exponent part [ex]. *)
Definition literal_value (ip fp ex : list ascii) : float :=
  Number.decimal_value (Chars.digits_value (ip ++ fp))
    (JS.exponent ex - Z.of_nat (length fp)).

(** The exponent an exponent part stands for: none is 0, and the sign if
    any is that of the exponent. *)
Inductive exponent_is : list ascii -> Z -> Prop :=
| exponent_is_none : exponent_is [] 0
| exponent_is_unsigned (mark : ascii) (ds : list ascii) :
    JS.is_exp_mark mark = true -> all_digits ds -> ds <> [] ->
    exponent_is (mark :: ds) (Chars.digits_value ds)
| exponent_is_plus (mark : ascii) (ds : list ascii) :
    JS.is_exp_mark mark = true -> all_digits ds -> ds <> [] ->
    exponent_is (mark :: "+"%char :: ds) (Chars.digits_value ds)
| exponent_is_minus (mark : ascii) (ds : list ascii) :
    JS.is_exp_mark mark = true -> all_digits ds -> ds <> [] ->
    exponent_is (mark :: "-"%char :: ds) (- Chars.digits_value ds).

(** The Number an unsigned literal denotes: [Infinity], or the binary64
    nearest to the digits, read as an integer, times the power of ten
    that the exponent part and the place of the decimal point give. *)
Inductive unsigned_denotes : list ascii -> float -> Prop :=
| denotes_Infinity : unsigned_denotes (list_ascii_of_string "Infinity") infinity
| denotes_integer (ip ex : list ascii) (E : Z) :
    all_digits ip -> ip <> [] -> exponent_is ex E ->
    unsigned_denotes (ip ++ ex) (Number.decimal_value (Chars.digits_value ip) E)
| denotes_fraction (ip fp ex : list ascii) (E : Z) :
    all_digits ip -> all_digits fp -> ip ++ fp <> [] -> exponent_is ex E ->
    unsigned_denotes (ip ++ "."%char :: fp ++ ex)
      (Number.decimal_value (Chars.digits_value (ip ++ fp)) (E - Z.of_nat (length fp))).

(** The Number a StrDecimalLiteral denotes: that of its unsigned part,
    negated after a minus sign. *)
Inductive literal_denotes : list ascii -> float -> Prop :=
| denotes_unsigned (u : list ascii) (x : float) :
    unsigned_denotes u x -> literal_denotes u x
| denotes_plus (u : list ascii) (x : float) :
    unsigned_denotes u x -> literal_denotes ("+"%char :: u) x
| denotes_minus (u : list ascii) (x : float) :
    unsigned_denotes u x -> literal_denotes ("-"%char :: u) (- x)%float.

(** A query in which no character is the NUL character, which the store
    takes in no pattern. *)
Definition no_NUL (q : string) : Prop :=
  Forall (fun c => Chars.code c <> 0) (list_ascii_of_string q).

(** The document the create handler builds from the coerced values. *)
Definition built (e : env) (name mobile : string) (date : option Z)
    (morning evening rate : float) : Doc.t :=
  {| Doc._id := fresh_id e; Doc.CreatedAt := now e;
     Doc.Name := name; Doc.Mobile := mobile; Doc.Date := date;
     Doc.Morning := morning; Doc.Evening := evening; Doc.Rate := rate;
     Doc.TotalLiters := (morning + evening)%float;
     Doc.TotalAmount := ((morning + evening) * rate)%float |}.

(** The bill the create handler stores for coerced values that pass
    validation. *)
Definition stored (e : env) (name mobile : string) (t : Z)
    (morning evening rate : float) : Bill :=
  {| Name := name; Mobile := mobile; Date := t;
     Morning := morning; Evening := evening; Rate := rate;
     TotalLiters := (morning + evening)%float;
     TotalAmount := ((morning + evening) * rate)%float;
     CreatedAt := now e |}.

(** What the schema and the create handler ask of a bill: a name, a
    mobile of ten digits, quantities and a rate above their minimums, and
    the totals computed from them. *)
Definition valid_bill (b : Bill) : Prop :=
  Name b <> ""%string /\ ten_digits (Mobile b) /\
  Number.geb (Morning b) 0 = true /\ Number.geb (Evening b) 0 = true /\
  Number.geb (Rate b) Schema.Rate_min = true /\
  TotalLiters b = (Morning b + Evening b)%float /\
  TotalAmount b = ((Morning b + Evening b) * Rate b)%float /\
  Number.isNaN (TotalAmount b) = false.

Definition valid_collection (db : collection) : Prop :=
  forall i b, db !! i = Some b -> valid_bill b.

Section Coerced.

Variable Date_parse : string -> option Z.

(** The six values the create handler coerces from the payload. *)
Definition coerced (rawBody : JS.value) (name mobile : string) (date : option Z)
    (morning evening rate : float) : Prop :=
  JS.get rawBody "Name" ≫= JS.String = Ok name /\
  JS.get rawBody "Mobile" ≫= JS.String = Ok mobile /\
  JS.get rawBody "Date" ≫= JS.Date Date_parse = Ok date /\
  JS.get rawBody "Morning" ≫= JS.parseFloat = Ok morning /\
  JS.get rawBody "Evening" ≫= JS.parseFloat = Ok evening /\
  JS.get rawBody "Rate" ≫= JS.parseFloat = Ok rate.

End Coerced.

(** The coerced values that pass the handler's test and the schema: the
    last condition says that the amount is a number, which it is unless
    no litres meet an infinite rate. *)
Definition acceptable (name mobile : string) (morning evening rate : float) : Prop :=
  name <> ""%string /\ ten_digits mobile /\
  Number.geb morning 0 = true /\ Number.geb evening 0 = true /\
  Number.geb rate Schema.Rate_min = true /\
  ((morning + evening =? 0)%float && (rate =? infinity)%float) = false.



(** ** The data of the examples *)

Module Sample.

Definition e : env := {| fresh_id := 1%N; now := 1704450000000 |}.

Definition fields (name mobile morning evening rate : list (string * JS.value))
  : JS.value :=
  JS.JObject (name ++ mobile ++ [("Date"%string, JS.JString "2024-01-05")]
              ++ morning ++ evening ++ rate).

Definition Name_Asha := [("Name"%string, JS.JString "Asha")].
Definition Mobile_ok := [("Mobile"%string, JS.JString "9876543210")].
Definition Morning_2 := [("Morning"%string, JS.JNumber 2)].
Definition Evening_1_5 := [("Evening"%string, JS.JNumber 1.5)].
Definition Rate_50 := [("Rate"%string, JS.JNumber 50)].

(** The request of the specification's example. *)
Definition request : JS.value :=
  fields Name_Asha Mobile_ok Morning_2 Evening_1_5 Rate_50.

(** The same request with totals of its own in the payload. *)
Definition request_with_totals : JS.value :=
  fields Name_Asha Mobile_ok Morning_2 Evening_1_5
    (Rate_50 ++ [("TotalLiters"%string, JS.JNumber 999);
                 ("TotalAmount"%string, JS.JNumber 1)]).

Definition asha : Bill :=
  {| Name := "Asha"; Mobile := "9876543210"; Date := 1704412800000;
     Morning := 2; Evening := 1.5; Rate := 50;
     TotalLiters := 3.5; TotalAmount := 175;
     CreatedAt := 1704450000000 |}.

(** The collection after the example request. *)
Definition db : collection := {[ 1%N := asha ]}.

End Sample.

(** The data of the further examples. *)
Module Edge.

(** A payload with the fields of the example and [date] as its Date. *)
Definition dated (date : JS.value) : JS.value :=
  JS.JObject [("Name"%string, JS.JString "Asha");
              ("Mobile"%string, JS.JString "9876543210");
              ("Date"%string, date);
              ("Morning"%string, JS.JNumber 2);
              ("Evening"%string, JS.JNumber 1.5);
              ("Rate"%string, JS.JNumber 50)].

(** The payload of the example without its Morning. *)
Definition no_Morning : JS.value :=
  Sample.fields Sample.Name_Asha Sample.Mobile_ok [] Sample.Evening_1_5 Sample.Rate_50.

Definition later : env := {| fresh_id := 2%N; now := 1704460000000 |}.

Definition id_1 : string := "000000000000000000000001".

End Edge.

(** * The conversions on examples *)

Module ConversionExamples.

Import JS.

Example toString_fraction : Number.toString 1.5 = "1.5"%string.
Proof. vm_compute. reflexivity. Qed.

Example toString_shortest : Number.toString (0.1 + 0.2) = "0.30000000000000004"%string.
Proof. vm_compute. reflexivity. Qed.

Example toString_large : Number.toString 1e21 = "1e+21"%string.
Proof. vm_compute. reflexivity. Qed.

Example toString_small : Number.toString 1e-7 = "1e-7"%string.
Proof. vm_compute. reflexivity. Qed.

Example toString_integer : Number.toString 9876543210 = "9876543210"%string.
Proof. vm_compute. reflexivity. Qed.

Example String_array :
  String (JArray [JNumber 7; JNull; JArray [JString "a"; JUndefined]; JBool false])
  = Ok "7,,a,,false"%string.
Proof. vm_compute. reflexivity. Qed.

Example String_object_toString : String (JObject [("toString"%string, JNull)]) = Throw TypeError.
Proof. reflexivity. Qed.

Example parseFloat_prefix_2abc : parseFloat (JString "2abc") = Ok 2%float.
Proof. vm_compute. reflexivity. Qed.

Example parseFloat_exponent : parseFloat (JString "  -1.5e3kg") = Ok (-1500)%float.
Proof. vm_compute. reflexivity. Qed.

Example parseFloat_no_digit : parseFloat (JString ".e1") = Ok nan.
Proof. vm_compute. reflexivity. Qed.

Example parseFloat_number : parseFloat (JNumber 1.5) = Ok 1.5%float.
Proof. vm_compute. reflexivity. Qed.

Example parseFloat_absent : parseFloat JUndefined = Ok nan.
Proof. vm_compute. reflexivity. Qed.

Example Date_iso : Date IsoDate.parse (JString "2024-01-05") = Ok (Some 1704412800000).
Proof. vm_compute. reflexivity. Qed.

Example Date_absent : Date IsoDate.parse JUndefined = Ok None.
Proof. reflexivity. Qed.

(** [$] in the validator is the end of the text, not the place before a
    last newline. *)
Example Mobile_validator_newline :
  Schema.Mobile_validator ("9876543210" +:+ String.String (ascii_of_nat 10) "") = false.
Proof. vm_compute. reflexivity. Qed.

Example castObjectId_hex :
  Store.castObjectId "0000000000000000000000ff" = Some 255%N.
Proof. vm_compute. reflexivity. Qed.

End ConversionExamples.

(** * Facts about Number values *)

Module NumberFacts.

(** A [Rate] that is not above zero is below the minimum of the schema. *)
Lemma nonpos_below_Rate_min (r : float) :
  (r <=? 0)%float = true -> Number.geb r Schema.Rate_min = false.
Proof.
  unfold Number.geb. rewrite !leb_spec.
  change (Prim2SF 0) with (S754_zero false).
  change (Prim2SF Schema.Rate_min) with (S754_finite false 5764607523034235 (-59)).
  destruct (Prim2SF r) as [s|s| |s m e]; try destruct s; cbn; congruence.
Qed.

Lemma negative_below_zero (x : float) :
  (x <? 0)%float = true -> Number.geb x 0 = false.
Proof.
  unfold Number.geb. rewrite ltb_spec, leb_spec.
  change (Prim2SF 0) with (S754_zero false).
  destruct (Prim2SF x) as [s|s| |s m e]; try destruct s; cbn; congruence.
Qed.

(** Rounding never gives NaN: the shifts keep a mantissa that is not
    negative. *)
Lemma shr_1_nonneg (mrs : shr_record) : 0 <= shr_m mrs -> 0 <= shr_m (shr_1 mrs).
Proof.
  destruct mrs as [m r s]; simpl. destruct m as [|[p|p|]|p]; simpl; lia.
Qed.

Lemma iter_shr_1_nonneg (p : positive) (mrs : shr_record) :
  0 <= shr_m mrs -> 0 <= shr_m (SpecFloat.iter_pos shr_1 p mrs).
Proof.
  revert mrs. induction p as [p IH|p IH|]; intros mrs H; simpl.
  - apply IH, IH, shr_1_nonneg, H.
  - apply IH, IH, H.
  - apply shr_1_nonneg, H.
Qed.

Lemma shr_fexp_nonneg (prec emax m e : Z) (l : location) :
  0 <= m -> 0 <= shr_m (shr_fexp prec emax m e l).1.
Proof.
  intros Hm. unfold shr_fexp, shr.
  assert (H0 : 0 <= shr_m (shr_record_of_loc m l)) by (destruct l as [|[]]; exact Hm).
  destruct (fexp prec emax (Zdigits2 m + e) - e); simpl; auto using iter_shr_1_nonneg.
Qed.

Lemma round_nearest_even_nonneg (m : Z) (l : location) :
  0 <= m -> 0 <= round_nearest_even m l.
Proof.
  intros Hm. destruct l as [|[]]; simpl; try lia. destruct (Z.even m); lia.
Qed.

Lemma binary_round_aux_not_nan (prec emax : Z) (s : bool) (m e : Z) (l : location) :
  0 <= m -> binary_round_aux prec emax s m e l <> S754_nan.
Proof.
  intros Hm. unfold binary_round_aux.
  pose proof (shr_fexp_nonneg prec emax m e l Hm) as H1.
  destruct (shr_fexp prec emax m e l) as [mrs' e']. simpl in H1.
  pose proof (shr_fexp_nonneg prec emax _ e' loc_Exact
                (round_nearest_even_nonneg _ (loc_of_shr_record mrs') H1)) as H2.
  destruct (shr_fexp prec emax _ e' loc_Exact) as [mrs'' e'']. simpl in H2.
  destruct (shr_m mrs''); [discriminate| |lia].
  destruct (e'' <=? emax - prec); discriminate.
Qed.

Lemma binary_round_not_nan (prec emax : Z) (s : bool) (m : positive) (e : Z) :
  binary_round prec emax s m e <> S754_nan.
Proof.
  unfold binary_round. destruct (shl_align m e _) as [mz ez].
  apply binary_round_aux_not_nan. lia.
Qed.

Lemma binary_normalize_not_nan (prec emax m e : Z) (szero : bool) :
  binary_normalize prec emax m e szero <> S754_nan.
Proof.
  destruct m; simpl; [discriminate|apply binary_round_not_nan..].
Qed.

Lemma is_nan_Prim2SF (x : float) : Prim2SF x <> S754_nan -> is_nan x = false.
Proof.
  intros H. destruct (is_nan x) eqn:Hx; [|reflexivity].
  exfalso. apply H. unfold Prim2SF. by rewrite Hx.
Qed.

Lemma Prim2SF_not_nan (x : float) : is_nan x = false -> Prim2SF x <> S754_nan.
Proof.
  intros Hx H. unfold is_nan in Hx. rewrite FloatAxioms.eqb_spec, H in Hx. discriminate.
Qed.

Lemma opp_not_nan (x : float) : is_nan x = false -> is_nan (- x) = false.
Proof.
  intros Hx. apply is_nan_Prim2SF. rewrite opp_spec.
  apply Prim2SF_not_nan in Hx. destruct (Prim2SF x); simpl; congruence.
Qed.

Lemma SF2Prim_not_nan (sf : spec_float) : sf <> S754_nan -> is_nan (SF2Prim sf) = false.
Proof.
  intros Hsf. destruct sf as [[]|[]| |s m e]; try reflexivity; [congruence|].
  assert (H : is_nan (Z.ldexp (of_uint63 (Uint63.of_Z (Z.pos m))) e) = false).
  { apply is_nan_Prim2SF. rewrite Z_ldexp_spec, of_uint63_spec.
    destruct (binary_normalize _ _ _ _ _) eqn:Hn; simpl; try discriminate.
    - by apply binary_normalize_not_nan in Hn.
    - apply binary_round_not_nan. }
  simpl. destruct s; [apply opp_not_nan|]; exact H.
Qed.

(** The value of decimal text is a number. *)
Lemma decimal_value_not_nan (M E : Z) : Number.isNaN (Number.decimal_value M E) = false.
Proof.
  unfold Number.isNaN, Number.decimal_value, Number.round_pow2.
  repeat (match goal with |- context [if ?c then _ else _] => destruct c end;
          try reflexivity);
    apply SF2Prim_not_nan, binary_normalize_not_nan.
Qed.

End NumberFacts.

(** * Facts about patterns *)

Module RegexFacts.

(** ** Literal patterns search for a substring *)

Lemma rmatch_lits (o : Regex.options) (q s : list ascii) (b : bool) :
  Regex.rmatch o (lits q) b s (fun _ _ => true)
  = prefix_by (Regex.chr_eq (Regex.ignore_case o)) q s.
Proof.
  revert s b. induction q as [|a q IH]; intros s b; simpl; [reflexivity|].
  destruct s as [|c s]; [reflexivity|]. by rewrite IH.
Qed.

Lemma search_lits (o : Regex.options) (q s : list ascii) (b : bool) :
  Regex.search o (lits q) b s = occurs (Regex.chr_eq (Regex.ignore_case o)) q s.
Proof.
  revert b. induction s as [|c s IH]; intros b; simpl; rewrite rmatch_lits; [reflexivity|].
  by rewrite IH.
Qed.

Lemma prefix_by_eqb (q s : list ascii) :
  prefix_by Chars.eqb q s = true <-> exists post, s = q ++ post.
Proof.
  revert s. induction q as [|a q IH]; intros s; simpl.
  - split; [eauto|done].
  - destruct s as [|c s].
    + split; [done|]. intros [post ?]. discriminate.
    + rewrite andb_true_iff, IH. unfold Chars.eqb. rewrite Ascii.eqb_eq. split.
      * intros [-> [post ->]]. eauto.
      * intros [post [= -> ->]]. eauto.
Qed.

Lemma occurs_eqb (q s : list ascii) :
  occurs Chars.eqb q s = true <-> substring q s.
Proof.
  unfold substring. induction s as [|c s IH]; simpl.
  - rewrite orb_false_r, prefix_by_eqb. split.
    + intros [post H]. exists [], post. done.
    + intros (pre & post & H). symmetry in H.
      apply app_eq_nil in H as [-> H]. exists post. by rewrite H.
  - rewrite orb_true_iff, prefix_by_eqb, IH. split.
    + intros [[post ->]|(pre & post & ->)].
      * by exists [], post.
      * by exists (c :: pre), post.
    + intros (pre & post & H). destruct pre as [|c' pre].
      * left. exists post. done.
      * right. injection H as -> ->. eauto.
Qed.

Lemma prefix_by_fold (q s : list ascii) :
  prefix_by (Regex.chr_eq true) q s = prefix_by Chars.eqb (fold_case q) (fold_case s).
Proof.
  revert s. induction q as [|a q IH]; intros [|c s]; simpl; try reflexivity.
  by rewrite IH.
Qed.

Lemma occurs_fold (q s : list ascii) :
  occurs (Regex.chr_eq true) q s = occurs Chars.eqb (fold_case q) (fold_case s).
Proof.
  induction s as [|c s IH]; simpl; rewrite prefix_by_fold; [reflexivity|].
  by rewrite IH.
Qed.

(** ** A query without metacharacters compiles to a literal pattern *)

Lemma not_meta (c : ascii) :
  Regex.is_meta c = false ->
  Regex.isc c "\" = false /\ Regex.isc c "^" = false /\ Regex.isc c "$" = false /\
  Regex.isc c "." = false /\ Regex.isc c "|" = false /\ Regex.isc c "?" = false /\
  Regex.isc c "*" = false /\ Regex.isc c "+" = false /\ Regex.isc c "(" = false /\
  Regex.isc c ")" = false /\ Regex.isc c "[" = false /\ Regex.isc c "]" = false /\
  Regex.isc c "{" = false /\ Regex.isc c "}" = false.
Proof.
  unfold Regex.is_meta. intros H.
  repeat (apply orb_false_elim in H as [H ?]). repeat split; assumption.
Qed.

Lemma parse_quantifier_literal (a : Regex.regex) (s : list ascii) :
  forallb (fun c => negb (Regex.is_meta c)) s = true ->
  Regex.parse_quantifier a s = Some (a, s).
Proof.
  destruct s as [|c s]; [reflexivity|]. simpl.
  intros [Hc _]%andb_prop. apply negb_true_iff, not_meta in Hc.
  destruct Hc as (_ & _ & _ & _ & _ & Hq & Hs & Hp & _ & _ & _ & _ & Hb & _).
  by rewrite Hs, Hp, Hq, Hb.
Qed.

Lemma parse_atom_literal (c : ascii) (s : list ascii) (fuel : nat) :
  Regex.is_meta c = false ->
  (1 <= fuel)%nat ->
  Regex.parse_atom fuel c s = Some (Regex.Chr c, s).
Proof.
  intros Hc Hfuel. destruct fuel as [|f]; [lia|].
  apply not_meta in Hc.
  destruct Hc as (H1 & H2 & H3 & H4 & H5 & H6 & H7 & H8 & H9 & H10 & H11 & H12 & H13 & H14).
  cbn [Regex.parse_atom Regex.is_quantifier].
  by rewrite H9, H11, H1, H4, H2, H3, H7, H8, H6, H13.
Qed.

Lemma parse_seq_literal (q : list ascii) (fuel : nat) :
  forallb (fun c => negb (Regex.is_meta c)) q = true ->
  (length q + 2 <= fuel)%nat ->
  Regex.parse_seq fuel q = Some (lits q, []).
Proof.
  revert fuel. induction q as [|c q IH]; intros fuel Hq Hfuel.
  - destruct fuel; [simpl in Hfuel; lia|reflexivity].
  - destruct fuel as [|f]; [simpl in Hfuel; lia|].
    simpl in Hq, Hfuel. apply andb_prop in Hq as [Hc Hq].
    apply negb_true_iff in Hc. pose proof (not_meta c Hc) as Hc'.
    destruct Hc' as (_ & _ & _ & _ & H5 & _ & _ & _ & _ & H10 & _).
    cbn [Regex.parse_seq]. rewrite H5, H10. cbn [orb].
    rewrite parse_atom_literal by (assumption || lia). cbn [mbind option_bind].
    rewrite parse_quantifier_literal by assumption. cbn [mbind option_bind].
    rewrite IH by (assumption || lia). reflexivity.
Qed.

Lemma compile_literal (q : string) :
  forallb (fun c => negb (Regex.is_meta c)) (list_ascii_of_string q) = true ->
  Regex.compile q = Some (lits (list_ascii_of_string q)).
Proof.
  intros Hq. unfold Regex.compile.
  set (s := list_ascii_of_string q) in *.
  replace (3 * length s + 3)%nat with (S (3 * length s + 2)) by lia.
  cbn [Regex.parse_alt]. rewrite parse_seq_literal by (assumption || lia).
  reflexivity.
Qed.

(** ** A group that is not closed is no pattern *)

Lemma parse_quantifier_head (a : Regex.regex) (c : ascii) (s : list ascii) :
  Regex.isc c "*" = false -> Regex.isc c "+" = false -> Regex.isc c "?" = false ->
  Regex.isc c "{" = false ->
  Regex.parse_quantifier a (c :: s) = Some (a, c :: s).
Proof. intros Hs Hp Hq Hb. cbn [Regex.parse_quantifier]. by rewrite Hs, Hp, Hq, Hb. Qed.

(** Whatever the fuel, a literal text is parsed whole or not at all. *)
Lemma parse_seq_literal_any (q : list ascii) (fuel : nat) :
  forallb (fun c => negb (Regex.is_meta c)) q = true ->
  Regex.parse_seq fuel q = None \/ Regex.parse_seq fuel q = Some (lits q, []).
Proof.
  revert fuel. induction q as [|c q IH]; intros fuel Hq.
  - destruct fuel; [by left|by right].
  - destruct fuel as [|f]; [by left|].
    simpl in Hq. apply andb_prop in Hq as [Hc Hq].
    apply negb_true_iff in Hc. pose proof (not_meta c Hc) as Hc'.
    destruct Hc' as (_ & _ & _ & _ & H5 & _ & _ & _ & _ & H10 & _).
    cbn [Regex.parse_seq]. rewrite H5, H10. cbn [orb].
    destruct f as [|f']; [by left|].
    rewrite parse_atom_literal by (assumption || lia). cbn [mbind option_bind].
    rewrite parse_quantifier_literal by assumption. cbn [mbind option_bind].
    destruct (IH (S f') Hq) as [-> | ->]; [by left|by right].
Qed.

Lemma parse_alt_literal_any (q : list ascii) (fuel : nat) :
  forallb (fun c => negb (Regex.is_meta c)) q = true ->
  Regex.parse_alt fuel q = None \/ Regex.parse_alt fuel q = Some (lits q, []).
Proof.
  intros Hq. destruct fuel as [|f]; [by left|]. cbn [Regex.parse_alt].
  destruct (parse_seq_literal_any q f Hq) as [-> | ->]; [by left|by right].
Qed.

Lemma parse_atom_unclosed (post : list ascii) (fuel : nat) :
  forallb (fun c => negb (Regex.is_meta c)) post = true ->
  Regex.parse_atom fuel "(" post = None.
Proof.
  intros Hpost. destruct fuel as [|f]; [reflexivity|]. cbn [Regex.parse_atom].
  change (Regex.isc "(" "(") with true. cbv iota.
  assert (Hopen : Regex.group_open post = Some post).
  { destruct post as [|c post]; [reflexivity|]. cbn [Regex.group_open].
    simpl in Hpost. apply andb_prop in Hpost as [Hc _].
    apply negb_true_iff, not_meta in Hc.
    destruct Hc as (_ & _ & _ & _ & _ & Hq & _). by rewrite Hq. }
  rewrite Hopen. cbn [mbind option_bind].
  by destruct (parse_alt_literal_any post f Hpost) as [-> | ->].
Qed.

Lemma parse_seq_unclosed (pre post : list ascii) (fuel : nat) :
  forallb (fun c => negb (Regex.is_meta c)) pre = true ->
  forallb (fun c => negb (Regex.is_meta c)) post = true ->
  Regex.parse_seq fuel (pre ++ "("%char :: post) = None.
Proof.
  intros Hpre Hpost. revert fuel. induction pre as [|c pre IH]; intros fuel.
  - destruct fuel as [|f]; [reflexivity|]. cbn [app Regex.parse_seq].
    change (Regex.isc "(" "|" || Regex.isc "(" ")") with false. cbv iota.
    by rewrite parse_atom_unclosed.
  - destruct fuel as [|f]; [reflexivity|].
    simpl in Hpre. apply andb_prop in Hpre as [Hc Hpre].
    apply negb_true_iff in Hc. pose proof (not_meta c Hc) as Hc'.
    destruct Hc' as (_ & _ & _ & _ & H5 & _ & _ & _ & _ & H10 & _).
    rewrite <- app_comm_cons. cbn [Regex.parse_seq]. rewrite H5, H10. cbn [orb].
    destruct f as [|f']; [reflexivity|].
    rewrite parse_atom_literal by (assumption || lia). cbn [mbind option_bind].
    assert (Hq : Regex.parse_quantifier (Regex.Chr c) (pre ++ "("%char :: post)
                 = Some (Regex.Chr c, pre ++ "("%char :: post)).
    { destruct pre as [|d pre]; [reflexivity|]. rewrite <- app_comm_cons.
      simpl in Hpre. apply andb_prop in Hpre as [Hd _].
      apply negb_true_iff, not_meta in Hd.
      destruct Hd as (_ & _ & _ & _ & _ & Hq & Hs & Hp & _ & _ & _ & _ & Hb & _).
      by apply parse_quantifier_head. }
    rewrite Hq. cbn [mbind option_bind]. by rewrite (IH Hpre).
Qed.

Lemma compile_unclosed (pre post : string) :
  Forall (fun c => Regex.is_meta c = false) (list_ascii_of_string pre) ->
  Forall (fun c => Regex.is_meta c = false) (list_ascii_of_string post) ->
  Regex.compile (pre +:+ String "(" post) = None.
Proof.
  intros Hpre Hpost.
  assert (Hb : forall s, Forall (fun c => Regex.is_meta c = false) s ->
                 forallb (fun c => negb (Regex.is_meta c)) s = true).
  { intros s Hs. apply forallb_forall. intros c Hc. rewrite Forall_forall in Hs.
    apply negb_true_iff, Hs. by apply list_elem_of_In. }
  unfold Regex.compile.
  assert (Happ : list_ascii_of_string (pre +:+ String "(" post)
                 = list_ascii_of_string pre ++ "("%char :: list_ascii_of_string post).
  { clear. induction pre as [|c pre IH]; simpl; [reflexivity|by rewrite IH]. }
  rewrite Happ. destruct (3 * _ + 3)%nat as [|f]; [reflexivity|].
  cbn [Regex.parse_alt]. by rewrite parse_seq_unclosed by auto.
Qed.

(** A quantifier with nothing to repeat is no pattern; after an atom it
    is one. *)
Example compile_bare_quantifier :
  Regex.compile "{1}" = None /\ Regex.compile "a|{2,}" = None /\
  Regex.compile "a{1}" = Some (Regex.Seq (Regex.Seq (Regex.Chr "a") Regex.Eps) Regex.Eps).
Proof. vm_compute. done. Qed.

(** ** The [Mobile] pattern accepts the texts of ten digits *)

Lemma rmatch_digits (o : Regex.options) (n : nat) (b : bool) (s : list ascii) :
  Regex.engine o = Regex.ECMAScript ->
  Regex.rmatch o (Regex.power digit_class n Regex.Eps) b s
    (fun b' s' => Regex.rmatch o (Regex.Seq Regex.Eol Regex.Eps) b' s' (fun _ _ => true))
  = digits_exactly n s.
Proof.
  intros Ho. revert b s. induction n as [|n IH]; intros b s; simpl.
  - rewrite Ho. destruct s; simpl; [reflexivity|]. by destruct s.
  - destruct s as [|c s]; [reflexivity|]. rewrite orb_false_r. simpl in IH. by rewrite IH.
Qed.

Lemma search_Bol_later (o : Regex.options) (r : Regex.regex) (s : list ascii) :
  Regex.search o (Regex.Seq Regex.Bol r) false s = false.
Proof. induction s as [|c s IH]; simpl; [reflexivity|exact IH]. Qed.

Lemma Mobile_compiled :
  Regex.compile Schema.Mobile_pattern
  = Some (Regex.Seq Regex.Bol
            (Regex.Seq (Regex.power digit_class 10 Regex.Eps)
               (Regex.Seq Regex.Eol Regex.Eps))).
Proof. vm_compute. reflexivity. Qed.

Lemma digits_exactly_spec (n : nat) (s : list ascii) :
  digits_exactly n s = true <-> length s = n /\ Forall (fun c => Chars.is_digit c = true) s.
Proof.
  revert s. induction n as [|n IH]; intros [|c s]; simpl;
    try (split; [done|intros [? _]; done]).
  rewrite andb_true_iff, IH. split.
  - intros [Hc [<- Hs]]. split; [done|by constructor].
  - intros [[= <-] Hs]. inversion Hs; subst. auto.
Qed.

(** The validator of the schema and the words of the specification agree. *)
Lemma Mobile_validator_spec (v : string) :
  Schema.Mobile_validator v = true <-> ten_digits v.
Proof.
  unfold Schema.Mobile_validator, ten_digits. rewrite Mobile_compiled.
  unfold Regex.test. rewrite <- digits_exactly_spec.
  destruct (list_ascii_of_string v) as [|c s] eqn:Hv.
  - reflexivity.
  - cbn [Regex.search]. rewrite search_Bol_later, orb_false_r.
    cbn [Regex.rmatch andb]. rewrite rmatch_digits by reflexivity. reflexivity.
Qed.

End RegexFacts.

(** * Facts about [parseFloat] *)

Module ParseFacts.

Import NumberFacts.

Lemma span_digits_app (ds rest : list ascii) :
  all_digits ds -> stops rest -> JS.span_digits (ds ++ rest) = (ds, rest).
Proof.
  intros Hds Hrest. induction Hds as [|c ds Hc _ IH]; cbn [app JS.span_digits].
  - destruct rest as [|c rest]; [reflexivity|]. cbn [JS.span_digits].
    simpl in Hrest. by rewrite Hrest.
  - by rewrite Hc, IH.
Qed.

Lemma span_digits_stops (s : list ascii) : stops s -> JS.span_digits s = ([], s).
Proof. apply (span_digits_app [] s). constructor. Qed.

Lemma digit_not (c d : ascii) :
  Chars.is_digit c = true -> Chars.is_digit d = false -> Chars.eqb c d = false.
Proof.
  intros Hc Hd. destruct (Chars.eqb c d) eqn:E; [|reflexivity].
  apply Ascii.eqb_eq in E. congruence.
Qed.

Lemma exp_mark_not_digit (c : ascii) : JS.is_exp_mark c = true -> Chars.is_digit c = false.
Proof.
  unfold JS.is_exp_mark, Chars.eqb.
  intros [->%Ascii.eqb_eq | ->%Ascii.eqb_eq]%orb_prop; reflexivity.
Qed.

Lemma exp_mark_not_point (c : ascii) : JS.is_exp_mark c = true -> Chars.eqb c "." = false.
Proof.
  unfold JS.is_exp_mark, Chars.eqb.
  intros [->%Ascii.eqb_eq | ->%Ascii.eqb_eq]%orb_prop; reflexivity.
Qed.

Lemma take_sign_digit (c : ascii) (s : list ascii) :
  Chars.is_digit c = true -> JS.take_sign (c :: s) = (false, c :: s).
Proof.
  intros Hc. unfold JS.take_sign. by rewrite !(digit_not c) by done.
Qed.

Lemma stops_tail (c : ascii) (s : list ascii) :
  Forall (fun c => Chars.is_digit c = false) (c :: s) -> stops s.
Proof. intros H. inversion H as [|? ? _ Hs]; subst. destruct Hs; simpl; auto. Qed.

Lemma take_sign_stops (s : list ascii) :
  Forall (fun c => Chars.is_digit c = false) s -> stops (JS.take_sign s).2.
Proof.
  intros H. destruct s as [|c s]; simpl; [done|].
  pose proof (stops_tail c s H) as Hs. inversion H; subst.
  destruct (Chars.eqb c "+"); [done|]. destruct (Chars.eqb c "-"); done.
Qed.

Lemma exponent_no_digit (s : list ascii) :
  Forall (fun c => Chars.is_digit c = false) s -> JS.exponent s = 0.
Proof.
  intros H. destruct s as [|c s]; simpl; [reflexivity|].
  destruct (JS.is_exp_mark c); [|reflexivity].
  inversion H as [|? ? _ Hs]; subst. apply take_sign_stops in Hs.
  destruct (JS.take_sign s) as [neg r]. simpl in Hs.
  by rewrite (span_digits_stops r Hs).
Qed.

(** What the scanner needs of the text after a literal. *)
Lemma non_numeric_facts (t : list ascii) :
  non_numeric t ->
  stops t /\ JS.exponent t = 0 /\
  exists s3, JS.fraction t = ([], s3) /\ JS.exponent s3 = 0.
Proof.
  intros [H|(c & t' & -> & Hd & Hp & He)].
  - split; [destruct H; simpl; auto|]. split; [by apply exponent_no_digit|].
    destruct t as [|c t]; simpl; [by exists []|].
    destruct (Chars.eqb c ".").
    + inversion H as [|? ? _ Ht]; subst. exists t.
      split; [apply span_digits_stops; destruct Ht; simpl; auto|by apply exponent_no_digit].
    + exists (c :: t). split; [reflexivity|by apply exponent_no_digit].
  - simpl. rewrite He, Hp. split; [done|]. split; [done|].
    exists (c :: t'). simpl. by rewrite He.
Qed.

Lemma exponent_app (ex t : list ascii) :
  exponent_chars ex -> non_numeric t ->
  stops (ex ++ t) /\ JS.exponent (ex ++ t) = JS.exponent ex /\
  (ex <> [] -> JS.fraction (ex ++ t) = ([], ex ++ t)).
Proof.
  intros Hex Ht. destruct (non_numeric_facts t Ht) as (Hstop & He & _).
  destruct Hex as [|mark sg ds Hmark Hsg Hds Hne]; simpl.
  - rewrite He. done.
  - rewrite (exp_mark_not_digit mark Hmark), Hmark, (exp_mark_not_point mark Hmark).
    split; [done|]. split; [|done].
    destruct ds as [|d ds]; [done|]. inversion Hds as [|? ? Hd Hds']; subst.
    assert (Hs : forall rest, stops rest ->
              JS.take_sign (sg ++ (d :: ds) ++ rest)
              = ((JS.take_sign (sg ++ [d])).1, (d :: ds) ++ rest)).
    { intros rest _. destruct Hsg; simpl; [|done..].
      by rewrite !(digit_not d) by done. }
    rewrite <- app_assoc, (Hs t Hstop).
    replace (sg ++ d :: ds) with (sg ++ (d :: ds) ++ []) by (by rewrite app_nil_r).
    rewrite (Hs [] I).
    rewrite !span_digits_app by done. reflexivity.
Qed.

Lemma starts_with_digit (c : ascii) (s : list ascii) :
  Chars.is_digit c = true \/ Chars.eqb c "." = true ->
  JS.starts_with (list_ascii_of_string "Infinity") (c :: s) = false.
Proof.
  intros H.
  change (Chars.eqb "I" c && JS.starts_with (list_ascii_of_string "nfinity") s = false).
  destruct (Chars.eqb "I" c) eqn:E; [|reflexivity].
  apply Ascii.eqb_eq in E. subst. destruct H; discriminate.
Qed.

Lemma starts_with_app (p s : list ascii) : JS.starts_with p (p ++ s) = true.
Proof.
  induction p as [|a p IH]; cbn [JS.starts_with app]; [reflexivity|].
  unfold Chars.eqb. by rewrite Ascii.eqb_refl, IH.
Qed.

Lemma parse_integer (ip ex t : list ascii) :
  all_digits ip -> ip <> [] -> exponent_chars ex -> non_numeric t ->
  JS.parse_unsigned ((ip ++ ex) ++ t) = literal_value ip [] ex.
Proof.
  intros Hip Hne Hex Ht. unfold JS.parse_unsigned, literal_value.
  destruct (exponent_app ex t Hex Ht) as (Hstop & He & Hfr).
  rewrite <- app_assoc.
  destruct ip as [|c ip]; [done|]. inversion Hip as [|? ? Hc _]; subst.
  rewrite <- app_comm_cons, starts_with_digit by auto.
  rewrite app_comm_cons, span_digits_app by done.
  destruct ex as [|mark ex].
  - simpl app at 1. destruct (non_numeric_facts t Ht) as (_ & _ & s3 & -> & ->).
    reflexivity.
  - rewrite Hfr by done. rewrite He. reflexivity.
Qed.

Lemma parse_fraction (ip fp ex t : list ascii) :
  all_digits ip -> all_digits fp -> ip ++ fp <> [] -> exponent_chars ex -> non_numeric t ->
  JS.parse_unsigned ((ip ++ "."%char :: fp ++ ex) ++ t) = literal_value ip fp ex.
Proof.
  intros Hip Hfp Hne Hex Ht. unfold JS.parse_unsigned, literal_value.
  destruct (exponent_app ex t Hex Ht) as (Hstop & He & _).
  rewrite <- app_assoc, <- app_comm_cons, <- app_assoc.
  assert (Hinf : JS.starts_with (list_ascii_of_string "Infinity")
                   (ip ++ "."%char :: fp ++ ex ++ t) = false).
  { destruct ip as [|c ip]; [by apply starts_with_digit; auto|].
    inversion Hip; subst. rewrite <- app_comm_cons. apply starts_with_digit; auto. }
  rewrite Hinf, span_digits_app by done.
  cbn [JS.fraction]. change (Chars.eqb "." ".") with true. cbn iota.
  rewrite span_digits_app by done. rewrite He.
  destruct (ip ++ fp); [done|reflexivity].
Qed.

Lemma parse_unsigned_prefix (u t : list ascii) :
  unsigned_literal u -> non_numeric t ->
  JS.parse_unsigned (u ++ t) = JS.parse_unsigned u /\
  Number.isNaN (JS.parse_unsigned u) = false.
Proof.
  assert (Hnil : non_numeric []) by (left; constructor).
  intros Hu Ht. destruct Hu as [|ip ex Hip Hne Hex|ip fp ex Hip Hfp Hne Hex].
  - unfold JS.parse_unsigned. rewrite starts_with_app. done.
  - rewrite (parse_integer ip ex t) by done.
    rewrite <- (app_nil_r (ip ++ ex)) at 1 2. rewrite (parse_integer ip ex []) by done.
    split; [reflexivity|apply decimal_value_not_nan].
  - rewrite (parse_fraction ip fp ex t) by done.
    rewrite <- (app_nil_r (ip ++ _ :: fp ++ ex)) at 1 2.
    rewrite (parse_fraction ip fp ex []) by done.
    split; [reflexivity|apply decimal_value_not_nan].
Qed.

Lemma take_sign_unsigned (u t : list ascii) :
  unsigned_literal u -> JS.take_sign (u ++ t) = (false, u ++ t).
Proof.
  intros [|ip ex Hip Hne Hex|ip fp ex Hip Hfp Hne Hex].
  - reflexivity.
  - destruct ip as [|c ip]; [done|]. inversion Hip; subst.
    rewrite <- !app_comm_cons. by apply take_sign_digit.
  - destruct ip as [|c ip]; [reflexivity|]. inversion Hip; subst.
    rewrite <- !app_comm_cons. by apply take_sign_digit.
Qed.

(** The scanner reads a literal to its end and no further, and its value
    is a number. *)
Lemma parse_decimal_prefix (p t : list ascii) :
  StrDecimalLiteral p -> non_numeric t ->
  JS.parse_decimal (p ++ t) = JS.parse_decimal p /\
  Number.isNaN (JS.parse_decimal p) = false.
Proof.
  intros [sg u Hsg Hu] Ht. unfold JS.parse_decimal.
  destruct (parse_unsigned_prefix u t Hu Ht) as [Heq Hnan].
  assert (Hs : forall rest, JS.take_sign (sg ++ u ++ rest)
                            = ((JS.take_sign (sg ++ [" "%char])).1, u ++ rest)).
  { intros rest. destruct Hsg; [|reflexivity..]. simpl app. by rewrite take_sign_unsigned. }
  rewrite <- app_assoc, (Hs t). rewrite <- (app_nil_r (sg ++ u)), <- app_assoc, (Hs []).
  rewrite app_nil_r, Heq. split; [reflexivity|].
  unfold JS.signed. destruct (JS.take_sign _).1; [by apply opp_not_nan|done].
Qed.

Lemma chars_app (p t : string) :
  list_ascii_of_string (p +:+ t) = list_ascii_of_string p ++ list_ascii_of_string t.
Proof. induction p as [|c p IH]; simpl; [reflexivity|by rewrite IH]. Qed.

Lemma digit_not_space (c : ascii) : Chars.is_digit c = true -> JS.is_space c = false.
Proof.
  unfold Chars.is_digit, JS.is_space. intros [H1 H2]%andb_prop.
  apply Z.leb_le in H1, H2. repeat rewrite orb_false_iff.
  repeat split; [apply andb_false_iff; right|..]; lia.
Qed.

Lemma trim_start_literal (p t : list ascii) :
  StrDecimalLiteral p -> JS.trim_start (p ++ t) = p ++ t.
Proof.
  assert (Hd : forall c s, Chars.is_digit c = true -> JS.trim_start (c :: s) = c :: s).
  { intros c s Hc. cbn [JS.trim_start]. by rewrite digit_not_space. }
  assert (Hu : forall u s, unsigned_literal u -> JS.trim_start (u ++ s) = u ++ s).
  { intros u s [|ip ex Hip Hne Hex|ip fp ex Hip Hfp Hne Hex].
    - reflexivity.
    - destruct ip as [|c ip]; [done|]. inversion Hip; subst. by apply Hd.
    - destruct ip as [|c ip]; [reflexivity|]. inversion Hip; subst. by apply Hd. }
  intros [sg u Hsg Hu']. destruct Hsg; [|reflexivity..]. by apply Hu.
Qed.

Lemma parseFloat_prefix (p t : string) :
  StrDecimalLiteral (list_ascii_of_string p) -> non_numeric (list_ascii_of_string t) ->
  exists x, JS.parseFloat (JS.JString (p +:+ t)) = Ok x /\
            JS.parseFloat (JS.JString p) = Ok x /\ Number.isNaN x = false.
Proof.
  intros Hp Ht. exists (JS.parse_decimal (list_ascii_of_string p)).
  destruct (parse_decimal_prefix _ _ Hp Ht) as [Heq Hnan].
  unfold JS.parseFloat. cbn [JS.String mbind result_bind].
  pose proof (trim_start_literal _ [] Hp) as Htrim. rewrite app_nil_r in Htrim.
  rewrite chars_app, trim_start_literal, Htrim, Heq by done. done.
Qed.

(** *** The value read is the value the literal denotes *)

Lemma exponent_is_chars (ex : list ascii) (E : Z) :
  exponent_is ex E -> exponent_chars ex /\ JS.exponent ex = E.
Proof.
  assert (Hspan : forall ds, all_digits ds -> JS.span_digits ds = (ds, [])).
  { intros ds Hds. rewrite <- (app_nil_r ds) at 1. by apply span_digits_app. }
  intros [|mark ds Hmark Hds Hne|mark ds Hmark Hds Hne|mark ds Hmark Hds Hne].
  - split; [constructor|reflexivity].
  - split; [by apply (exponent_some mark [] ds); [|constructor|..]|].
    cbn [JS.exponent]. rewrite Hmark.
    destruct ds as [|d ds]; [done|]. inversion Hds; subst.
    rewrite take_sign_digit by done. cbv beta iota. rewrite Hspan by done. reflexivity.
  - split; [by apply (exponent_some mark ["+"%char] ds); [|constructor|..]|].
    cbn [JS.exponent]. rewrite Hmark.
    change (JS.take_sign ("+"%char :: ds)) with (false, ds). cbv beta iota.
    rewrite Hspan by done. by destruct ds.
  - split; [by apply (exponent_some mark ["-"%char] ds); [|constructor|..]|].
    cbn [JS.exponent]. rewrite Hmark.
    change (JS.take_sign ("-"%char :: ds)) with (true, ds). cbv beta iota.
    rewrite Hspan by done. by destruct ds.
Qed.


Lemma unsigned_denotes_literal (u : list ascii) (x : float) :
  unsigned_denotes u x -> unsigned_literal u.
Proof.
  intros [|ip ex E Hip Hne [Hex _]%exponent_is_chars
          |ip fp ex E Hip Hfp Hne [Hex _]%exponent_is_chars]; by constructor.
Qed.


(** The scanner gives an unsigned literal the value it denotes. *)
Lemma parse_unsigned_denotes (u : list ascii) (x : float) :
  unsigned_denotes u x -> JS.parse_unsigned u = x.
Proof.
  assert (Hnil : non_numeric []) by (left; constructor).
  intros [|ip ex E Hip Hne HE|ip fp ex E Hip Hfp Hne HE].
  - reflexivity.
  - apply exponent_is_chars in HE as [Hex <-].
    rewrite <- (app_nil_r (ip ++ ex)), (parse_integer ip ex []) by done.
    unfold literal_value. by rewrite app_nil_r, Z.sub_0_r.
  - apply exponent_is_chars in HE as [Hex <-].
    rewrite <- (app_nil_r (ip ++ _ :: fp ++ ex)), (parse_fraction ip fp ex []) by done.
    reflexivity.
Qed.



(** The scanner gives a literal the value it denotes. *)
Lemma parse_decimal_denotes (p : list ascii) (x : float) :
  literal_denotes p x -> JS.parse_decimal p = x.
Proof.
  intros [u y Hu|u y Hu|u y Hu]; unfold JS.parse_decimal.
  - pose proof (take_sign_unsigned u [] (unsigned_denotes_literal u y Hu)) as Hs.
    rewrite app_nil_r in Hs. rewrite Hs. cbn [JS.signed].
    by apply parse_unsigned_denotes.
  - change (JS.take_sign ("+"%char :: u)) with (false, u). cbn [JS.signed].
    by apply parse_unsigned_denotes.
  - change (JS.take_sign ("-"%char :: u)) with (true, u). cbn [JS.signed].
    by rewrite (parse_unsigned_denotes u y Hu).
Qed.

(** A literal denotes one Number. *)
Lemma literal_denotes_functional (p : list ascii) (x y : float) :
  literal_denotes p x -> literal_denotes p y -> x = y.
Proof. intros Hx%parse_decimal_denotes Hy%parse_decimal_denotes. congruence. Qed.


Example denotes_2 : literal_denotes (list_ascii_of_string "2") 2.
Proof.
  apply denotes_unsigned.
  apply (denotes_integer ["2"%char] [] 0); [repeat constructor|discriminate|constructor].
Qed.

Example denotes_negative : literal_denotes (list_ascii_of_string "-1.25e+2") (-125).
Proof.
  apply (denotes_minus (list_ascii_of_string "1.25e+2") 125).
  apply (denotes_fraction ["1"%char] ["2"%char; "5"%char] ["e"%char; "+"%char; "2"%char] 2);
    [repeat constructor..|discriminate|].
  apply (exponent_is_plus "e" ["2"%char]); [reflexivity|repeat constructor|discriminate].
Qed.

Lemma own_app (props : list (string * JS.value)) (k key : string) (v : JS.value) :
  JS.own (props ++ [(k, v)]) key
  = if String.eqb k key then Some v else JS.own props key.
Proof.
  induction props as [|[k0 v0] props IH]; simpl.
  - reflexivity.
  - rewrite IH. by destruct (String.eqb k key).
Qed.

(** A property added last to an object is the one read. *)
Lemma get_app (props : list (string * JS.value)) (k key : string) (v : JS.value) :
  JS.get (JS.JObject (props ++ [(k, v)])) key
  = if String.eqb k key then Ok v else JS.get (JS.JObject props) key.
Proof. simpl. rewrite own_app. by destruct (String.eqb k key). Qed.

End ParseFacts.

(** * Facts about the store *)

Module StoreFacts.

#[export] Instance Date_desc_trans : Transitive Store.Date_desc.
Proof. unfold Store.Date_desc. intros a b c. lia. Qed.

#[export] Instance Date_desc_total : Total Store.Date_desc.
Proof. unfold Store.Date_desc. intros a b. lia. Qed.

Lemma sort_sorted (bs : list document) : StronglySorted Store.Date_desc (Store.sort bs).
Proof. apply StronglySorted_merge_sort; apply _. Qed.

Lemma sort_perm (bs : list document) : Store.sort bs ≡ₚ bs.
Proof. apply merge_sort_Permutation. Qed.

Lemma elem_of_documents (db : collection) (d : document) :
  d ∈ Store.documents db <-> db !! d.1 = Some d.2.
Proof. destruct d as [i b]. apply elem_of_map_to_list. Qed.

Lemma matches_literal (q : string) (d : document) :
  Store.matches (lits (list_ascii_of_string q)) d = true <-> selects q d.
Proof.
  unfold Store.matches, Regex.test, selects, contains, contains_ci.
  rewrite !RegexFacts.search_lits, orb_true_iff. simpl.
  by rewrite RegexFacts.occurs_fold, !RegexFacts.occurs_eqb.
Qed.

Lemma find_literal (q : string) (db : collection) :
  literal_query q ->
  Store.find (Store.NameOrMobile q) db
  = Ok (List.filter (Store.matches (lits (list_ascii_of_string q))) (Store.documents db)).
Proof.
  intros [_ Hq]. simpl. rewrite RegexFacts.compile_literal; [reflexivity|].
  apply forallb_forall. intros c Hc. rewrite Forall_forall in Hq.
  apply negb_true_iff, Hq. by apply list_elem_of_In.
Qed.

Lemma validate_Ok (d : Doc.t) (b : Bill) :
  Schema.validate d = Ok b ->
  JS.falsy (Doc.Name d) = false /\
  JS.falsy (Doc.Mobile d) = false /\
  Schema.Mobile_validator (Doc.Mobile d) = true /\
  Doc.Date d = Some (Date b) /\
  Number.geb (Doc.Morning d) 0 = true /\
  Number.geb (Doc.Evening d) 0 = true /\
  Number.geb (Doc.Rate d) Schema.Rate_min = true /\
  Number.isNaN (Doc.TotalLiters d) = false /\
  Number.isNaN (Doc.TotalAmount d) = false /\
  Name b = Doc.Name d /\ Mobile b = Doc.Mobile d /\
  Morning b = Doc.Morning d /\ Evening b = Doc.Evening d /\ Rate b = Doc.Rate d /\
  TotalLiters b = Doc.TotalLiters d /\ TotalAmount b = Doc.TotalAmount d /\
  CreatedAt b = Doc.CreatedAt d.
Proof.
  unfold Schema.validate, Schema.check_String, Schema.check_Date, Schema.check_Number.
  destruct (JS.falsy (Doc.Name d)); [discriminate|].
  destruct (JS.falsy (Doc.Mobile d)); [discriminate|].
  destruct (Schema.Mobile_validator (Doc.Mobile d)); [|discriminate].
  destruct (Doc.Date d) as [t|]; [|discriminate]. simpl.
  destruct (Number.isNaN (Doc.Morning d)); [discriminate|].
  destruct (Number.geb (Doc.Morning d) 0); [|discriminate].
  destruct (Number.isNaN (Doc.Evening d)); [discriminate|].
  destruct (Number.geb (Doc.Evening d) 0); [|discriminate].
  destruct (Number.isNaN (Doc.Rate d)); [discriminate|].
  destruct (Number.geb (Doc.Rate d) Schema.Rate_min); [|discriminate].
  destruct (Number.isNaN (Doc.TotalLiters d)); [discriminate|].
  destruct (Number.isNaN (Doc.TotalAmount d)); [discriminate|].
  intros [= <-]. simpl. repeat split; reflexivity.
Qed.

Lemma save_Ok (d : Doc.t) (db : collection) (saved : document) (db' : collection) :
  Store.save d db = Ok (saved, db') ->
  exists b, Schema.validate d = Ok b /\ db !! Doc._id d = None /\
            saved = (Doc._id d, b) /\ db' = <[Doc._id d := b]> db.
Proof.
  unfold Store.save, Store.insert.
  destruct (Schema.validate d) as [b|err]; simpl; [|discriminate].
  destruct (db !! Doc._id d) eqn:Hfree; simpl; [discriminate|].
  intros [= <- <-]. exists b. auto.
Qed.

End StoreFacts.

(** * The create handler *)

Section Create.

Import StoreFacts.

Variable Date_parse : string -> option Z.

(** Every request is either answered 400 with the collection as it was,
    or its six values are coerced without a throw, the document built
    from them passes validation, its [_id] is free, and it is answered 201
    with the document inserted. *)
Lemma post_api_bills_cases (e : env) (rawBody : JS.value) (db : collection) :
  let r := post_api_bills Date_parse e rawBody db in
  (status r.1 = 400 /\ r.2 = db) \/
  (exists name mobile date morning evening rate b,
     JS.get rawBody "Name" ≫= JS.String = Ok name /\
     JS.get rawBody "Mobile" ≫= JS.String = Ok mobile /\
     JS.get rawBody "Date" ≫= JS.Date Date_parse = Ok date /\
     JS.get rawBody "Morning" ≫= JS.parseFloat = Ok morning /\
     JS.get rawBody "Evening" ≫= JS.parseFloat = Ok evening /\
     JS.get rawBody "Rate" ≫= JS.parseFloat = Ok rate /\
     Schema.validate (built e name mobile date morning evening rate) = Ok b /\
     db !! fresh_id e = None /\
     r = ({| status := 201; body := JsonBill (fresh_id e, b) |},
          <[fresh_id e := b]> db)).
Proof.
  unfold post_api_bills.
  destruct (JS.get rawBody "Name" ≫= JS.String) as [name|] eqn:Hname; simpl; [|auto].
  destruct (JS.get rawBody "Mobile" ≫= JS.String) as [mobile|] eqn:Hmobile; simpl; [|auto].
  destruct (JS.get rawBody "Date" ≫= JS.Date Date_parse) as [date|] eqn:Hdate; simpl; [|auto].
  destruct (JS.get rawBody "Morning" ≫= JS.parseFloat) as [morning|] eqn:Hmorning; simpl; [|auto].
  destruct (JS.get rawBody "Evening" ≫= JS.parseFloat) as [evening|] eqn:Hevening; simpl; [|auto].
  destruct (JS.get rawBody "Rate" ≫= JS.parseFloat) as [rate|] eqn:Hrate; simpl; [|auto].
  match goal with |- context [if ?g then _ else _] => destruct g end; simpl; [auto|].
  fold (built e name mobile date morning evening rate).
  destruct (Store.save _ db) as [[saved db']|err] eqn:Hsave; simpl; [|auto].
  apply save_Ok in Hsave as (b & Hb & Hfree & -> & ->). right.
  exists name, mobile, date, morning, evening, rate, b. simpl. auto 10.
Qed.

(** The cases of a request, with the names of the second one. *)
Ltac post_cases e rawBody db H :=
  destruct (post_api_bills_cases e rawBody db)
    as [H|(name & mobile & date & morning & evening & rate & b & Hname & Hmobile
           & Hdate & Hmorning & Hevening & Hrate & Hvalid & Hfree & Hcreated)].


(** A [Mobile] text that is not ten digits never passes. *)
Lemma Mobile_rejected (e : env) (rawBody : JS.value) (db : collection) :
  (forall mobile, JS.get rawBody "Mobile" ≫= JS.String = Ok mobile -> ~ ten_digits mobile) ->
  status (post_api_bills Date_parse e rawBody db).1 = 400 /\
  (post_api_bills Date_parse e rawBody db).2 = db.
Proof.
  intros Hbad. post_cases e rawBody db H; [exact H|].
  apply validate_Ok in Hvalid as (_ & _ & Hok & _). simpl in Hok.
  apply RegexFacts.Mobile_validator_spec in Hok. destruct (Hbad mobile Hmobile Hok).
Qed.

(** An empty [Name] or [Mobile] is refused. *)
Lemma empty_Name_or_Mobile_rejected (e : env) (rawBody : JS.value) (db : collection) :
  JS.get rawBody "Name" ≫= JS.String = Ok ""%string
  \/ JS.get rawBody "Mobile" ≫= JS.String = Ok ""%string ->
  status (post_api_bills Date_parse e rawBody db).1 = 400 /\
  (post_api_bills Date_parse e rawBody db).2 = db.
Proof.
  intros Hempty. post_cases e rawBody db H; [exact H|].
  apply validate_Ok in Hvalid as (Hn & Hm & _). simpl in Hn, Hm.
  destruct Hempty as [He|He]; rewrite He in *; simplify_eq; discriminate.
Qed.

(** A request object without a [Mobile] is refused: the text
    ["undefined"] is not ten digits. *)
Lemma absent_Mobile_rejected (e : env) (props : list (string * JS.value))
    (db : collection) :
  JS.own props "Mobile" = None ->
  status (post_api_bills Date_parse e (JS.JObject props) db).1 = 400 /\
  (post_api_bills Date_parse e (JS.JObject props) db).2 = db.
Proof.
  intros Habsent. apply Mobile_rejected. intros mobile. simpl. rewrite Habsent. simpl.
  intros [= <-] [Hlen _]. discriminate.
Qed.

(** What is stored on a 201 satisfies the schema. *)
Lemma created_bill_valid (e : env) (rawBody : JS.value) (db : collection) :
  status (post_api_bills Date_parse e rawBody db).1 = 201 ->
  exists b,
    (post_api_bills Date_parse e rawBody db).2 = <[fresh_id e := b]> db /\
    Name b <> ""%string /\ ten_digits (Mobile b) /\
    Number.geb (Morning b) 0 = true /\ Number.geb (Evening b) 0 = true /\
    Number.geb (Rate b) Schema.Rate_min = true /\
    Number.isNaN (TotalLiters b) = false /\ Number.isNaN (TotalAmount b) = false.
Proof.
  intros Hstatus. post_cases e rawBody db H.
  - destruct H as [H400 _]. rewrite H400 in Hstatus. discriminate.
  - exists b.
    apply validate_Ok in Hvalid
      as (Hn & _ & Hm & _ & H1 & H2 & H3 & H4 & H5 & -> & -> & -> & -> & -> & -> & -> & _).
    simpl in *. rewrite Hcreated.
    apply RegexFacts.Mobile_validator_spec in Hm.
    repeat split; try assumption; try apply Hm.
    intros ->. discriminate.
Qed.

(** C1: when a create request is answered 201, the document stored and
    returned has [TotalLiters = Morning + Evening] and
    [TotalAmount = (Morning + Evening) * Rate], where [Morning], [Evening]
    and [Rate] are the values [parseFloat] gives for the three fields of
    the payload and [+] and [*] are the operations of the language on
    Number values; nothing else of the payload enters the two totals. *)
Theorem C1_created_totals (e : env) (rawBody : JS.value) (db : collection) :
  status (post_api_bills Date_parse e rawBody db).1 = 201 ->
  exists morning evening rate b,
    JS.get rawBody "Morning" ≫= JS.parseFloat = Ok morning /\
    JS.get rawBody "Evening" ≫= JS.parseFloat = Ok evening /\
    JS.get rawBody "Rate" ≫= JS.parseFloat = Ok rate /\
    post_api_bills Date_parse e rawBody db
    = ({| status := 201; body := JsonBill (fresh_id e, b) |}, <[fresh_id e := b]> db) /\
    db !! fresh_id e = None /\
    Morning b = morning /\ Evening b = evening /\ Rate b = rate /\
    TotalLiters b = (morning + evening)%float /\
    TotalAmount b = ((morning + evening) * rate)%float.
Proof.
  intros Hstatus. post_cases e rawBody db H.
  - destruct H as [H400 _]. rewrite H400 in Hstatus. discriminate.
  - exists morning, evening, rate, b.
    apply validate_Ok in Hvalid
      as (_ & _ & _ & _ & _ & _ & _ & _ & _ & _ & _ & Hb1 & Hb2 & Hb3 & Hb4 & Hb5 & _).
    simpl in *. rewrite Hcreated. repeat split; assumption.
Qed.

(** C6: a create request whose [Mobile], as the text [String] makes of
    it, is not exactly ten decimal digits is answered 400, and the
    collection stays as it was. *)
Theorem C6_Mobile_ten_digits (e : env) (rawBody : JS.value) (db : collection) :
  (forall mobile, JS.get rawBody "Mobile" ≫= JS.String = Ok mobile -> ~ ten_digits mobile) ->
  status (post_api_bills Date_parse e rawBody db).1 = 400 /\
  (post_api_bills Date_parse e rawBody db).2 = db.
Proof.
  intros Hbad. post_cases e rawBody db H; [exact H|].
  (* the request was created: its [Mobile] passed the validator *)
  apply validate_Ok in Hvalid as (_ & _ & Hok & _). simpl in Hok.
  apply RegexFacts.Mobile_validator_spec in Hok.
  destruct (Hbad mobile Hmobile Hok).
Qed.

(** C7: a create request whose [Rate], as [parseFloat] reads it, is zero
    or less, or whose [Morning] or [Evening] is below zero, is answered
    400, and the collection stays as it was. *)
Theorem C7_minimums (e : env) (rawBody : JS.value) (db : collection) :
  (exists rate, JS.get rawBody "Rate" ≫= JS.parseFloat = Ok rate
                /\ (rate <=? 0)%float = true)
  \/ (exists morning, JS.get rawBody "Morning" ≫= JS.parseFloat = Ok morning
                      /\ (morning <? 0)%float = true)
  \/ (exists evening, JS.get rawBody "Evening" ≫= JS.parseFloat = Ok evening
                      /\ (evening <? 0)%float = true) ->
  status (post_api_bills Date_parse e rawBody db).1 = 400 /\
  (post_api_bills Date_parse e rawBody db).2 = db.
Proof.
  intros Hlow. post_cases e rawBody db H; [exact H|].
  apply validate_Ok in Hvalid as (_ & _ & _ & _ & Hm0 & He0 & Hr0 & _). simpl in *.
  destruct Hlow as [(x & Hx & Hle)|[(x & Hx & Hlt)|(x & Hx & Hlt)]];
    rewrite Hx in *; simplify_eq.
  - apply NumberFacts.nonpos_below_Rate_min in Hle. congruence.
  - apply NumberFacts.negative_below_zero in Hlt. congruence.
  - apply NumberFacts.negative_below_zero in Hlt. congruence.
Qed.

(** C9: a create request answered with an error status leaves the
    collection as it was, whether the handler's own test refused it, a
    conversion threw, validation failed or the insertion was refused. *)
Theorem C9_error_leaves_collection (e : env) (rawBody : JS.value) (db : collection) :
  400 <= status (post_api_bills Date_parse e rawBody db).1 ->
  (post_api_bills Date_parse e rawBody db).2 = db.
Proof.
  intros Hstatus. post_cases e rawBody db H; [exact (proj2 H)|].
  rewrite Hcreated in Hstatus. simpl in Hstatus. lia.
Qed.


End Create.

(** * The read and delete handlers *)

Section ReadDelete.

Import StoreFacts.

Lemma truthy_Some (q : string) : q <> ""%string -> truthy (Some q) = Some q.
Proof.
  intros Hq. unfold truthy, JS.falsy. destruct (String.eqb q "") eqn:E; [|reflexivity].
  apply String.eqb_eq in E. done.
Qed.

(** C4: with no query, or an empty one, the list handler answers 200
    with every stored bill, each once, later dates before earlier ones. *)
Theorem C4_list_all (db : collection) :
  exists bills,
    get_api_bills None db = {| status := 200; body := JsonBills bills |} /\
    get_api_bills (Some ""%string) db = {| status := 200; body := JsonBills bills |} /\
    bills ≡ₚ map_to_list db /\
    (forall i b, (i, b) ∈ bills <-> db !! i = Some b) /\
    StronglySorted Store.Date_desc bills.
Proof.
  exists (Store.sort (Store.documents db)). repeat split; try reflexivity.
  - apply sort_perm.
  - rewrite sort_perm. intros H. by apply (elem_of_documents db (i, b)).
  - rewrite sort_perm. intros H. by apply (elem_of_documents db (i, b)).
  - apply sort_sorted.
Qed.


(** C8, amended: the search handler answers 400 when the query parameter
    is absent or empty; a query without metacharacter and without NUL
    that no stored bill holds, neither in its [Name] whatever the case of
    the letters nor in its [Mobile], is answered 200 with an empty list;
    and a query in which a group is opened and not closed, which is no
    pattern, is answered 500. *)
Theorem C8_search_query (db : collection) (q : string) :
  literal_query q ->
  no_NUL q ->
  (forall d, d ∈ Store.documents db -> ~ selects q d) ->
  get_api_bills_search None db
  = {| status := 400; body := JsonError (Text "Search query required") |} /\
  get_api_bills_search (Some ""%string) db
  = {| status := 400; body := JsonError (Text "Search query required") |} /\
  get_api_bills_search (Some q) db = {| status := 200; body := JsonBills [] |} /\
  (forall pre post,
     Forall (fun c => Regex.is_meta c = false) (list_ascii_of_string pre) ->
     Forall (fun c => Regex.is_meta c = false) (list_ascii_of_string post) ->
     get_api_bills_search (Some (pre +:+ String "(" post)) db
     = {| status := 500; body := JsonError (Text "Search failed") |}).
Proof.
  intros Hq _ Hnone. split; [reflexivity|]. split; [reflexivity|]. split.
  - unfold get_api_bills_search. rewrite truthy_Some by (by destruct Hq).
    rewrite find_literal by done. cbn [mbind result_bind].
    assert (Hnil : List.filter (Store.matches (lits (list_ascii_of_string q)))
                     (Store.documents db) = []).
    { induction (Store.documents db) as [|d ds IH]; [reflexivity|].
      cbn [List.filter].
      destruct (Store.matches _ d) eqn:E.
      - apply matches_literal in E. destruct (Hnone d); [left|done].
      - apply IH. intros d' Hd'. apply Hnone. by right. }
    by rewrite Hnil.
  - intros pre post Hpre Hpost. unfold get_api_bills_search.
    rewrite truthy_Some by (by destruct pre).
    cbn [Store.find]. by rewrite RegexFacts.compile_unclosed.
Qed.

(** A path parameter that is no [ObjectId] makes the query throw. *)
Lemma delete_malformed (id : string) (db : collection) :
  Store.castObjectId id = None ->
  delete_api_bills id db
  = ({| status := 500; body := JsonError (MessageOf (CastError P_id)) |}, db).
Proof. intros H. unfold delete_api_bills, Store.findByIdAndDelete. by rewrite H. Qed.

(** No list or search on a collection from which [i] was deleted shows a
    bill with that [_id]. *)
Lemma listed_after_delete (i : N) (db : collection) (query : option string)
    (bills : list document) :
  get_api_bills query (delete i db) = {| status := 200; body := JsonBills bills |}
  \/ get_api_bills_search query (delete i db) = {| status := 200; body := JsonBills bills |} ->
  forall d, d ∈ bills -> d.1 <> i.
Proof.
  assert (Hfind : forall f bs, Store.find f (delete i db) = Ok bs ->
                    forall d, d ∈ bs -> d.1 <> i).
  { intros f bs Hf [j b] Hd. simpl. intros ->. destruct f as [|q]; simpl in Hf.
    - injection Hf as <-. apply elem_of_documents in Hd. simpl in Hd.
      rewrite lookup_delete_eq in Hd. discriminate.
    - destruct (Regex.compile q); [|discriminate]. injection Hf as <-.
      apply list_elem_of_In, filter_In in Hd as [Hd _].
      apply list_elem_of_In, elem_of_documents in Hd. simpl in Hd.
      rewrite lookup_delete_eq in Hd. discriminate. }
  unfold get_api_bills, get_api_bills_search. intros H d Hd.
  destruct H as [H|H].
  - destruct (Store.find _ (delete i db)) as [bs|] eqn:Hf; simpl in H; [|discriminate].
    injection H as <-. rewrite sort_perm in Hd. by eapply Hfind.
  - destruct (truthy query) as [q|]; [|discriminate].
    destruct (Store.find _ (delete i db)) as [bs|] eqn:Hf; simpl in H; [|discriminate].
    injection H as <-. rewrite sort_perm in Hd. by eapply Hfind.
Qed.

(** C5, amended: for a path parameter that is an [ObjectId] (24
    hexadecimal digits), the delete handler answers 404 and changes
    nothing when no stored bill has it; when one has it, the handler
    answers 200 with a confirmation, that bill is gone, the others stay,
    and no list or search on the collection shows it any more.  A
    parameter that is no [ObjectId] is answered 500. *)
Theorem C5_delete_by_id (id : string) (db : collection) :
  match Store.castObjectId id with
  | None =>
      delete_api_bills id db
      = ({| status := 500; body := JsonError (MessageOf (CastError P_id)) |}, db)
  | Some i =>
      match db !! i with
      | None =>
          delete_api_bills id db
          = ({| status := 404; body := JsonError (Text "Bill not found") |}, db)
      | Some b =>
          delete_api_bills id db
          = ({| status := 200; body := JsonMessage "Bill deleted successfully" |},
             delete i db)
          /\ delete i db !! i = None
          /\ (forall j, j <> i -> delete i db !! j = db !! j)
          /\ (forall query bills,
                get_api_bills query (delete i db)
                = {| status := 200; body := JsonBills bills |}
                \/ get_api_bills_search query (delete i db)
                   = {| status := 200; body := JsonBills bills |} ->
                forall d, d ∈ bills -> d.1 <> i)
      end
  end.
Proof.
  destruct (Store.castObjectId id) as [i|] eqn:Hid; [|by apply delete_malformed].
  unfold delete_api_bills, Store.findByIdAndDelete. rewrite Hid.
  destruct (db !! i) as [b|] eqn:Hb; [|reflexivity].
  split; [reflexivity|]. split; [apply lookup_delete_eq|].
  split; [intros j Hj; by apply lookup_delete_ne|].
  apply listed_after_delete.
Qed.

End ReadDelete.

(** * Examples, witnesses and counterexamples *)

(** The example of the specification: 2 and 1.5 litres at 50 give 3.5
    litres and 175. *)
Example create_asha :
  post_api_bills IsoDate.parse Sample.e Sample.request ∅
  = ({| status := 201; body := JsonBill (1%N, Sample.asha) |}, Sample.db).
Proof. vm_compute. reflexivity. Qed.

(** Totals sent in the payload do not reach the stored bill. *)
Example payload_totals_ignored :
  post_api_bills IsoDate.parse Sample.e Sample.request_with_totals ∅
  = post_api_bills IsoDate.parse Sample.e Sample.request ∅.
Proof. vm_compute. reflexivity. Qed.

(** A pattern that does not compile makes the list handler fail. *)
Example list_bad_pattern :
  get_api_bills (Some "("%string) Sample.db
  = {| status := 500; body := JsonError (Text "Failed to fetch bills") |}.
Proof. vm_compute. reflexivity. Qed.

(** C2: a create request without a [Name] should be refused, but
    [String(undefined)] is the text ["undefined"], which is not empty: the
    request is answered 201 and a bill named ["undefined"] is stored. *)
Theorem C2_absent_Name_is_stored :
  post_api_bills IsoDate.parse Sample.e
    (Sample.fields [] Sample.Mobile_ok Sample.Morning_2 Sample.Evening_1_5 Sample.Rate_50) ∅
  = ({| status := 201;
        body := JsonBill (1%N, {| Name := "undefined"; Mobile := "9876543210";
                                  Date := 1704412800000;
                                  Morning := 2; Evening := 1.5; Rate := 50;
                                  TotalLiters := 3.5; TotalAmount := 175;
                                  CreatedAt := 1704450000000 |}) |},
     {[ 1%N := {| Name := "undefined"; Mobile := "9876543210";
                  Date := 1704412800000;
                  Morning := 2; Evening := 1.5; Rate := 50;
                  TotalLiters := 3.5; TotalAmount := 175;
                  CreatedAt := 1704450000000 |} ]}).
Proof. vm_compute. reflexivity. Qed.

Lemma C1_created_totals_witness :
  status (post_api_bills IsoDate.parse Sample.e Sample.request_with_totals ∅).1 = 201 /\
  exists morning evening rate b,
    JS.get Sample.request_with_totals "Morning" ≫= JS.parseFloat = Ok morning /\
    JS.get Sample.request_with_totals "Evening" ≫= JS.parseFloat = Ok evening /\
    JS.get Sample.request_with_totals "Rate" ≫= JS.parseFloat = Ok rate /\
    post_api_bills IsoDate.parse Sample.e Sample.request_with_totals ∅
    = ({| status := 201; body := JsonBill (fresh_id Sample.e, b) |},
       <[fresh_id Sample.e := b]> ∅) /\
    (∅ : collection) !! fresh_id Sample.e = None /\
    Morning b = morning /\ Evening b = evening /\ Rate b = rate /\
    TotalLiters b = (morning + evening)%float /\
    TotalAmount b = ((morning + evening) * rate)%float.
Proof.
  split; [vm_compute; reflexivity|].
  apply (C1_created_totals IsoDate.parse Sample.e Sample.request_with_totals ∅).
  vm_compute. reflexivity.
Defined.



(** The text [xyz] is no [ObjectId], and no bill is stored under it: the
    answer is 500, not 404. *)
Lemma C5_counterexample :
  delete_api_bills "xyz" Sample.db
  = ({| status := 500; body := JsonError (MessageOf (CastError P_id)) |}, Sample.db).
Proof. vm_compute. reflexivity. Qed.

Lemma C6_Mobile_ten_digits_witness :
  let rawBody :=
    Sample.fields Sample.Name_Asha [("Mobile"%string, JS.JString "98765")]
      Sample.Morning_2 Sample.Evening_1_5 Sample.Rate_50 in
  (forall mobile, JS.get rawBody "Mobile" ≫= JS.String = Ok mobile -> ~ ten_digits mobile) /\
  status (post_api_bills IsoDate.parse Sample.e rawBody ∅).1 = 400 /\
  (post_api_bills IsoDate.parse Sample.e rawBody ∅).2 = ∅.
Proof.
  intros rawBody.
  assert (H : forall mobile, JS.get rawBody "Mobile" ≫= JS.String = Ok mobile ->
                             ~ ten_digits mobile).
  { intros mobile. vm_compute. intros [= <-] [Hlen _]. discriminate. }
  split; [exact H|]. exact (C6_Mobile_ten_digits IsoDate.parse Sample.e rawBody ∅ H).
Defined.

Lemma C7_minimums_witness :
  let rawBody :=
    Sample.fields Sample.Name_Asha Sample.Mobile_ok Sample.Morning_2 Sample.Evening_1_5
      [("Rate"%string, JS.JString "0")] in
  ((exists rate, JS.get rawBody "Rate" ≫= JS.parseFloat = Ok rate
                 /\ (rate <=? 0)%float = true)
   \/ (exists morning, JS.get rawBody "Morning" ≫= JS.parseFloat = Ok morning
                       /\ (morning <? 0)%float = true)
   \/ (exists evening, JS.get rawBody "Evening" ≫= JS.parseFloat = Ok evening
                       /\ (evening <? 0)%float = true)) /\
  status (post_api_bills IsoDate.parse Sample.e rawBody ∅).1 = 400 /\
  (post_api_bills IsoDate.parse Sample.e rawBody ∅).2 = ∅.
Proof.
  intros rawBody.
  assert (H : (exists rate, JS.get rawBody "Rate" ≫= JS.parseFloat = Ok rate
                            /\ (rate <=? 0)%float = true)
              \/ (exists morning, JS.get rawBody "Morning" ≫= JS.parseFloat = Ok morning
                                  /\ (morning <? 0)%float = true)
              \/ (exists evening, JS.get rawBody "Evening" ≫= JS.parseFloat = Ok evening
                                  /\ (evening <? 0)%float = true)).
  { left. exists 0%float. split; vm_compute; reflexivity. }
  split; [exact H|]. exact (C7_minimums IsoDate.parse Sample.e rawBody ∅ H).
Defined.

Lemma C8_search_query_witness :
  literal_query "zz" /\
  no_NUL "zz" /\
  (forall d, d ∈ Store.documents Sample.db -> ~ selects "zz" d) /\
  get_api_bills_search None Sample.db
  = {| status := 400; body := JsonError (Text "Search query required") |} /\
  get_api_bills_search (Some ""%string) Sample.db
  = {| status := 400; body := JsonError (Text "Search query required") |} /\
  get_api_bills_search (Some "zz"%string) Sample.db
  = {| status := 200; body := JsonBills [] |} /\
  (forall pre post,
     Forall (fun c => Regex.is_meta c = false) (list_ascii_of_string pre) ->
     Forall (fun c => Regex.is_meta c = false) (list_ascii_of_string post) ->
     get_api_bills_search (Some (pre +:+ String "(" post)) Sample.db
     = {| status := 500; body := JsonError (Text "Search failed") |}).
Proof.
  assert (H1 : literal_query "zz") by (split; [discriminate|repeat constructor]).
  assert (H2 : no_NUL "zz") by (repeat constructor; discriminate).
  assert (H3 : forall d, d ∈ Store.documents Sample.db -> ~ selects "zz" d).
  { intros d Hd.
    change (Store.documents Sample.db) with [(1%N, Sample.asha)] in Hd.
    apply list_elem_of_singleton in Hd as ->.
    intros [H|H]; apply RegexFacts.occurs_eqb in H; vm_compute in H; discriminate. }
  split; [exact H1|]. split; [exact H2|]. split; [exact H3|].
  exact (C8_search_query Sample.db "zz" H1 H2 H3).
Defined.

(** The query [(] holds in no stored bill, and it is no pattern either:
    the search handler answers 500, not 200 with an empty list. *)
Lemma C8_counterexample :
  get_api_bills_search (Some "("%string) Sample.db
  = {| status := 500; body := JsonError (Text "Search failed") |} /\
  forall d, d ∈ Store.documents Sample.db -> ~ selects "(" d.
Proof.
  split; [vm_compute; reflexivity|]. intros d Hd.
  change (Store.documents Sample.db) with [(1%N, Sample.asha)] in Hd.
  apply list_elem_of_singleton in Hd as ->.
  intros [H|H]; apply RegexFacts.occurs_eqb in H; vm_compute in H; discriminate.
Qed.

Lemma C9_error_leaves_collection_witness :
  let e := {| fresh_id := 2%N; now := 1704460000000 |} in
  let rawBody :=
    Sample.fields Sample.Name_Asha [("Mobile"%string, JS.JNumber 98765)]
      Sample.Morning_2 Sample.Evening_1_5 Sample.Rate_50 in
  400 <= status (post_api_bills IsoDate.parse e rawBody Sample.db).1 /\
  (post_api_bills IsoDate.parse e rawBody Sample.db).2 = Sample.db.
Proof.
  intros e rawBody.
  assert (H : 400 <= status (post_api_bills IsoDate.parse e rawBody Sample.db).1)
    by (vm_compute; discriminate).
  split; [exact H|].
  exact (C9_error_leaves_collection IsoDate.parse e rawBody Sample.db H).
Defined.


(** The request of the witness is created with 2 litres in the morning. *)
Example create_2abc :
  (post_api_bills IsoDate.parse Sample.e
     (Sample.fields Sample.Name_Asha Sample.Mobile_ok
        [("Morning"%string, JS.JString "2abc")] Sample.Evening_1_5 Sample.Rate_50) ∅).1
  = {| status := 201; body := JsonBill (1%N, Sample.asha) |}.
Proof. vm_compute. reflexivity. Qed.

(** * Further properties of the handlers *)

(** ** Quantities, rates and amounts *)

Module AmountFacts.

Lemma geb_not_nan (x y : float) : Number.geb x y = true -> Number.isNaN x = false.
Proof.
  unfold Number.geb, Number.isNaN. rewrite leb_spec. intros H.
  apply NumberFacts.is_nan_Prim2SF. intros Hx. rewrite Hx in H.
  destruct (Prim2SF y); discriminate.
Qed.

Lemma sum_not_nan (x y : float) :
  Number.geb x 0 = true -> Number.geb y 0 = true -> Number.isNaN (x + y) = false.
Proof.
  unfold Number.geb, Number.isNaN. rewrite !leb_spec.
  change (Prim2SF 0) with (S754_zero false). intros Hx Hy.
  apply NumberFacts.is_nan_Prim2SF. rewrite add_spec. unfold SF64add.
  destruct (Prim2SF x) as [sx|[]| |[] mx ex]; try discriminate;
    destruct (Prim2SF y) as [sy|[]| |[] my ey]; try discriminate;
    try (destruct sx); try (destruct sy); simpl; try discriminate.
  apply NumberFacts.binary_round_not_nan.
Qed.

Lemma binary_round_aux_nonneg (prec emax m e : Z) (l : location) :
  0 <= m -> SFleb (S754_zero false) (binary_round_aux prec emax false m e l) = true.
Proof.
  intros Hm. unfold binary_round_aux.
  pose proof (NumberFacts.shr_fexp_nonneg prec emax m e l Hm) as H1.
  destruct (shr_fexp prec emax m e l) as [mrs' e']. simpl in H1.
  pose proof (NumberFacts.shr_fexp_nonneg prec emax _ e' loc_Exact
                (NumberFacts.round_nearest_even_nonneg _ (loc_of_shr_record mrs') H1)) as H2.
  destruct (shr_fexp prec emax _ e' loc_Exact) as [mrs'' e'']. simpl in H2.
  destruct (shr_m mrs''); [reflexivity| |lia].
  destruct (e'' <=? emax - prec); reflexivity.
Qed.

Lemma binary_round_nonneg (prec emax : Z) (m : positive) (e : Z) :
  SFleb (S754_zero false) (binary_round prec emax false m e) = true.
Proof.
  unfold binary_round. destruct (shl_align m e _) as [mz ez].
  apply binary_round_aux_nonneg. lia.
Qed.

(** The sum of two numbers that are not below zero is not below zero. *)
Lemma sum_nonneg (x y : float) :
  Number.geb x 0 = true -> Number.geb y 0 = true -> Number.geb (x + y) 0 = true.
Proof.
  unfold Number.geb. rewrite !leb_spec, add_spec.
  change (Prim2SF 0) with (S754_zero false). unfold SF64add.
  destruct (Prim2SF x) as [sx|[]| |[] mx ex]; try discriminate;
    destruct (Prim2SF y) as [sy|[]| |[] my ey]; try discriminate;
    try (destruct sx); try (destruct sy); simpl; try reflexivity.
  intros _ _. apply binary_round_nonneg.
Qed.

Lemma product_nan_iff (s r : float) :
  Number.geb s 0 = true -> Number.geb r Schema.Rate_min = true ->
  (Number.isNaN (s * r) = true <-> (s =? 0)%float = true /\ (r =? infinity)%float = true).
Proof.
  unfold Number.geb, Number.isNaN. rewrite !leb_spec, !FloatAxioms.eqb_spec.
  change (Prim2SF 0) with (S754_zero false).
  change (Prim2SF infinity) with (S754_infinity false).
  change (Prim2SF Schema.Rate_min) with (S754_finite false 5764607523034235 (-59)).
  intros Hs Hr.
  assert (Hnan : forall x, is_nan x = true <-> Prim2SF x = S754_nan).
  { intros x. split.
    - intros H. unfold Prim2SF. by rewrite H.
    - intros H. destruct (is_nan x) eqn:E; [done|].
      by apply NumberFacts.Prim2SF_not_nan in E. }
  rewrite Hnan, mul_spec. unfold SF64mul.
  destruct (Prim2SF s) as [ss|[]| |[] ms es]; try discriminate;
    destruct (Prim2SF r) as [sr|[]| |[] mr er]; try discriminate; simpl;
    try (split; [discriminate|intros [? ?]; discriminate]);
    try (split; [done|done]).
  split; [|intros [? ?]; discriminate]. intros H. exfalso. revert H.
  apply NumberFacts.binary_round_aux_not_nan. lia.
Qed.


Lemma acceptable_amount (name mobile : string) (morning evening rate : float) :
  acceptable name mobile morning evening rate ->
  Number.isNaN ((morning + evening) * rate) = false.
Proof.
  intros (_ & _ & H1 & H2 & H3 & H4).
  pose proof (sum_nonneg _ _ H1 H2) as Hs.
  destruct (Number.isNaN ((morning + evening) * rate)) eqn:E; [|reflexivity].
  apply product_nan_iff in E as [E1 E2]; [|done..]. by rewrite E1, E2 in H4.
Qed.

End AmountFacts.

(** ** What the coercions throw *)

Module CoerceFacts.

(** Induction on values, through the elements of arrays. *)
Lemma value_elements_ind (P : JS.value -> Prop) :
  P JS.JUndefined -> P JS.JNull -> (forall b, P (JS.JBool b)) ->
  (forall x, P (JS.JNumber x)) -> (forall s, P (JS.JString s)) ->
  (forall elems, Forall P elems -> P (JS.JArray elems)) ->
  (forall props, P (JS.JObject props)) ->
  forall v, P v.
Proof.
  intros Hu Hn Hb Hx Hs Ha Ho.
  fix IH 1. intros [| |b|x|s|elems|props];
    [exact Hu|exact Hn|apply Hb|apply Hx|apply Hs| |apply Ho].
  apply Ha. induction elems as [|v elems IHl]; constructor; [apply IH|exact IHl].
Qed.

Lemma join_throws (elem : JS.value -> result string) (elems : list JS.value) (err : error) :
  Forall (fun x => forall e', elem x = Throw e' -> e' = TypeError) elems ->
  (fix join (l : list JS.value) : result string :=
     match l with
     | [] => Ok ""%string
     | [x] => elem x
     | x :: rest => s ← elem x; r ← join rest; Ok (s +:+ "," +:+ r)
     end) elems = Throw err ->
  err = TypeError.
Proof.
  intros H. induction H as [|x l Hx Hl IH]; [discriminate|].
  destruct l as [|y l]; [apply Hx|].
  destruct (elem x) as [s|e1] eqn:E1; cbn [mbind result_bind].
  - match type of IH with ?J = _ -> _ => destruct J as [r|e2] eqn:E2 end.
    + discriminate.
    + intros [= <-]. by apply IH.
  - intros [= <-]. by apply Hx.
Qed.

Lemma String_throws (v : JS.value) (err : error) :
  JS.String v = Throw err -> err = TypeError.
Proof.
  revert err. induction v as [| |b|x|s|elems IH|props] using value_elements_ind;
    intros err; try discriminate.
  - destruct b; discriminate.
  - cbn [JS.String]. apply join_throws.
    eapply Forall_impl; [exact IH|]. intros x Hx e'. simpl in Hx.
    destruct x; try discriminate; apply Hx.
  - cbn [JS.String]. destruct (JS.own props "toString"); [|discriminate].
    by intros [= <-].
Qed.

Lemma get_throws (v : JS.value) (key : string) (err : error) :
  JS.get v key = Throw err -> err = TypeError.
Proof. destruct v; simpl; intros [= <-] || discriminate; reflexivity. Qed.

Section Coerce.
Variable Date_parse : string -> option Z.

Lemma coerce_throws (v : JS.value) (key : string) (err : error) :
  (JS.get v key ≫= JS.String = Throw err -> err = TypeError) /\
  (JS.get v key ≫= JS.parseFloat = Throw err -> err = TypeError) /\
  (JS.get v key ≫= JS.Date Date_parse = Throw err -> err = TypeError).
Proof.
  destruct (JS.get v key) as [w|e0] eqn:Hget; cbn [mbind result_bind].
  - split; [apply String_throws|]. split.
    + unfold JS.parseFloat. destruct (JS.String w) eqn:E; cbn [mbind result_bind];
        [discriminate|]. intros [= <-]. by eapply String_throws.
    + destruct w; cbn [JS.Date]; try discriminate;
        (destruct (JS.String _) eqn:E; cbn [mbind result_bind];
         [discriminate|intros [= <-]; by eapply String_throws]).
  - apply get_throws in Hget as ->. repeat split; by intros [= <-].
Qed.
End Coerce.

End CoerceFacts.

(** ** The cases of the create handler *)

Section CreateCases.

Import StoreFacts AmountFacts CoerceFacts.

Variable Date_parse : string -> option Z.

Lemma falsy_empty (s : string) : JS.falsy s = false <-> s <> ""%string.
Proof.
  unfold JS.falsy. destruct (String.eqb s "") eqn:E.
  - apply String.eqb_eq in E. split; [discriminate|congruence].
  - apply String.eqb_neq in E. split; [auto|reflexivity].
Qed.

Lemma validate_built (e : env) (name mobile : string) (t : Z) (morning evening rate : float) :
  name <> ""%string -> ten_digits mobile ->
  Number.geb morning 0 = true -> Number.geb evening 0 = true ->
  Number.geb rate Schema.Rate_min = true ->
  Number.isNaN ((morning + evening) * rate) = false ->
  Schema.validate (built e name mobile (Some t) morning evening rate)
  = Ok (stored e name mobile t morning evening rate).
Proof.
  intros Hn Hm H1 H2 H3 H4.
  assert (Hm' : mobile <> ""%string).
  { intros ->. destruct Hm as [Hlen _]. discriminate. }
  apply falsy_empty in Hn, Hm'. apply RegexFacts.Mobile_validator_spec in Hm.
  unfold Schema.validate, Schema.check_String, Schema.check_Date, Schema.check_Number, built.
  cbn [Doc.Name Doc.Mobile Doc.Date Doc.Morning Doc.Evening Doc.Rate Doc.TotalLiters
       Doc.TotalAmount Doc.CreatedAt Schema.Date_validator].
  rewrite Hn, Hm', Hm, H1, H2, H3, H4.
  rewrite (geb_not_nan _ _ H1), (geb_not_nan _ _ H2), (geb_not_nan _ _ H3).
  rewrite (sum_not_nan _ _ H1 H2). reflexivity.
Qed.

Lemma post_api_bills_coerced (e : env) (rawBody : JS.value) (db : collection)
    (name mobile : string) (date : option Z) (morning evening rate : float) :
  coerced Date_parse rawBody name mobile date morning evening rate ->
  post_api_bills Date_parse e rawBody db
  = if JS.falsy name || JS.falsy mobile
       || Number.isNaN morning || Number.isNaN evening || Number.isNaN rate
    then ({| status := 400;
             body := JsonReceived (Text "Missing or invalid required fields")
                       name mobile date morning evening rate |}, db)
    else match Store.save (built e name mobile date morning evening rate) db with
         | Ok (saved, db') => ({| status := 201; body := JsonBill saved |}, db')
         | Throw err =>
             ({| status := 400;
                 body := JsonDetails
                           (if message_includes_validation_failed err
                            then MessageOf err else Text "Failed to create bill")
                           err |}, db)
         end.
Proof.
  intros (H1 & H2 & H3 & H4 & H5 & H6). unfold post_api_bills.
  rewrite H1, H2, H3, H4, H5, H6. cbn [mbind result_bind].
  rewrite orb_false_r.
  destruct (_ || _ || _ || _ || _); [reflexivity|].
  fold (built e name mobile date morning evening rate).
  by destruct (Store.save _ db) as [[saved db']|err].
Qed.

Lemma post_api_bills_throws (e : env) (rawBody : JS.value) (db : collection) :
  (forall name mobile date morning evening rate,
     ~ coerced Date_parse rawBody name mobile date morning evening rate) ->
  post_api_bills Date_parse e rawBody db
  = ({| status := 400; body := JsonDetails (Text "Failed to create bill") TypeError |}, db).
Proof.
  intros Hnone. unfold post_api_bills.
  pose proof (coerce_throws Date_parse rawBody) as Hthrow.
  destruct (JS.get rawBody "Name" ≫= JS.String) as [name|e1] eqn:H1; cbn [mbind result_bind];
    [|by apply (Hthrow "Name"%string) in H1 as ->].
  destruct (JS.get rawBody "Mobile" ≫= JS.String) as [mobile|e2] eqn:H2; cbn [mbind result_bind];
    [|by apply (Hthrow "Mobile"%string) in H2 as ->].
  destruct (JS.get rawBody "Date" ≫= JS.Date Date_parse) as [date|e3] eqn:H3;
    cbn [mbind result_bind]; [|by apply (Hthrow "Date"%string) in H3 as ->].
  destruct (JS.get rawBody "Morning" ≫= JS.parseFloat) as [morning|e4] eqn:H4;
    cbn [mbind result_bind]; [|by apply (Hthrow "Morning"%string) in H4 as ->].
  destruct (JS.get rawBody "Evening" ≫= JS.parseFloat) as [evening|e5] eqn:H5;
    cbn [mbind result_bind]; [|by apply (Hthrow "Evening"%string) in H5 as ->].
  destruct (JS.get rawBody "Rate" ≫= JS.parseFloat) as [rate|e6] eqn:H6;
    cbn [mbind result_bind]; [|by apply (Hthrow "Rate"%string) in H6 as ->].
  destruct (Hnone name mobile date morning evening rate). by repeat split.
Qed.

Lemma coerced_or_not (rawBody : JS.value) :
  (exists name mobile date morning evening rate,
     coerced Date_parse rawBody name mobile date morning evening rate)
  \/ (forall name mobile date morning evening rate,
        ~ coerced Date_parse rawBody name mobile date morning evening rate).
Proof.
  unfold coerced.
  destruct (JS.get rawBody "Name" ≫= JS.String) as [name|]; [|right; intros; intros (? & _); done].
  destruct (JS.get rawBody "Mobile" ≫= JS.String) as [mobile|];
    [|right; intros; intros (_ & ? & _); done].
  destruct (JS.get rawBody "Date" ≫= JS.Date Date_parse) as [date|];
    [|right; intros; intros (_ & _ & ? & _); done].
  destruct (JS.get rawBody "Morning" ≫= JS.parseFloat) as [morning|];
    [|right; intros; intros (_ & _ & _ & ? & _); done].
  destruct (JS.get rawBody "Evening" ≫= JS.parseFloat) as [evening|];
    [|right; intros; intros (_ & _ & _ & _ & ? & _); done].
  destruct (JS.get rawBody "Rate" ≫= JS.parseFloat) as [rate|];
    [|right; intros; intros (_ & _ & _ & _ & _ & ?); done].
  left. by exists name, mobile, date, morning, evening, rate.
Qed.

(** What passes validation, on the coerced values. *)
Lemma validate_throws (d : Doc.t) (err : error) :
  Schema.validate d = Throw err -> exists fs, err = ValidationError fs /\ fs <> [].
Proof.
  unfold Schema.validate.
  destruct (Schema.check_String None _), (Schema.check_String (Some _) _),
    (Schema.check_Date _), (Schema.check_Number (Some 0%float) (Doc.Morning d)),
    (Schema.check_Number (Some 0%float) (Doc.Evening d)),
    (Schema.check_Number (Some Schema.Rate_min) _),
    (Schema.check_Number None (Doc.TotalLiters d)),
    (Schema.check_Number None (Doc.TotalAmount d));
    intros [= <-]; eexists; (split; [reflexivity|discriminate]).
Qed.

Lemma save_throws (d : Doc.t) (db : collection) (err : error) :
  Store.save d db = Throw err ->
  (exists fs, err = ValidationError fs /\ fs <> [])
  \/ (err = DuplicateKey /\ is_Some (db !! Doc._id d)).
Proof.
  unfold Store.save, Store.insert.
  destruct (Schema.validate d) as [b|e0] eqn:Hv; cbn [mbind result_bind].
  - destruct (db !! Doc._id d) eqn:Hid; cbn [mbind result_bind]; [|discriminate].
    intros [= <-]. right. eauto.
  - intros [= <-]. left. by eapply validate_throws.
Qed.

Lemma post_created (e : env) (rawBody : JS.value) (db : collection)
    (name mobile : string) (t : Z) (morning evening rate : float) :
  coerced Date_parse rawBody name mobile (Some t) morning evening rate ->
  acceptable name mobile morning evening rate ->
  db !! fresh_id e = None ->
  post_api_bills Date_parse e rawBody db
  = ({| status := 201;
        body := JsonBill (fresh_id e, stored e name mobile t morning evening rate) |},
     <[fresh_id e := stored e name mobile t morning evening rate]> db).
Proof.
  intros Hc Ha Hfree. rewrite (post_api_bills_coerced _ _ _ _ _ _ _ _ _ Hc).
  pose proof (acceptable_amount _ _ _ _ _ Ha) as Hamount.
  destruct Ha as (Hn & Hm & H1 & H2 & H3 & H4).
  assert (Hm' : mobile <> ""%string).
  { intros ->. destruct Hm as [Hlen _]. discriminate. }
  apply falsy_empty in Hm'. pose proof Hn as Hn'. apply falsy_empty in Hn'.
  rewrite Hn', Hm', (geb_not_nan _ _ H1), (geb_not_nan _ _ H2), (geb_not_nan _ _ H3).
  cbn [orb]. unfold Store.save. rewrite validate_built by done.
  cbn [mbind result_bind]. unfold Store.insert. cbn [built Doc._id].
  by rewrite Hfree.
Qed.

Lemma post_created_inv (e : env) (rawBody : JS.value) (db : collection) :
  status (post_api_bills Date_parse e rawBody db).1 = 201 ->
  exists name mobile t morning evening rate,
    coerced Date_parse rawBody name mobile (Some t) morning evening rate /\
    acceptable name mobile morning evening rate /\
    db !! fresh_id e = None.
Proof.
  intros Hstatus.
  destruct (post_api_bills_cases Date_parse e rawBody db)
    as [[H400 _]|(name & mobile & date & morning & evening & rate & b & Hn & Hm & Hd
                  & Hmo & Hev & Hra & Hval & Hfree & _)].
  - rewrite H400 in Hstatus. discriminate.
  - apply validate_Ok in Hval
      as (Vn & _ & Vm & Vd & V1 & V2 & V3 & _ & V5 & _). simpl in *.
    exists name, mobile, (Date b), morning, evening, rate.
    split; [by rewrite <- Vd; repeat split|]. split; [|done].
    split; [by apply falsy_empty|]. split; [by apply RegexFacts.Mobile_validator_spec|].
    repeat (split; [done|]).
    destruct ((morning + evening =? 0)%float && (rate =? infinity)%float) eqn:E;
      [|reflexivity].
    apply andb_prop in E. apply (product_nan_iff _ _ (sum_nonneg _ _ V1 V2) V3) in E.
    unfold Number.isNaN in *. congruence.
Qed.

(** X1: every answer of the create handler is 201, or 400 with one of
    four bodies: the text 'Missing or invalid required fields' with the
    coerced values, when the name or the mobile is empty or one of the three
    numbers is NaN; the message of a validation error that lists at least
    one path; the text 'Failed to create bill' with the TypeError a
    coercion threw; or that text with a duplicate key, when the generated
    [_id] is taken. *)
Theorem X1_create_answers (e : env) (rawBody : JS.value) (db : collection) :
  let r := (post_api_bills Date_parse e rawBody db).1 in
  status r = 201 \/
  status r = 400 /\
  ((exists name mobile date morning evening rate,
      coerced Date_parse rawBody name mobile date morning evening rate /\
      (name = ""%string \/ mobile = ""%string \/ Number.isNaN morning = true
       \/ Number.isNaN evening = true \/ Number.isNaN rate = true) /\
      body r = JsonReceived (Text "Missing or invalid required fields")
                 name mobile date morning evening rate)
   \/ (exists fs, fs <> [] /\
         body r = JsonDetails (MessageOf (ValidationError fs)) (ValidationError fs))
   \/ body r = JsonDetails (Text "Failed to create bill") TypeError
   \/ (is_Some (db !! fresh_id e) /\
       body r = JsonDetails (Text "Failed to create bill") DuplicateKey)).
Proof.
  destruct (coerced_or_not rawBody)
    as [(name & mobile & date & morning & evening & rate & Hc)|Hnone].
  - rewrite (post_api_bills_coerced e _ db _ _ _ _ _ _ Hc).
    destruct (JS.falsy name) eqn:En.
    { right. split; [done|]. left. exists name, mobile, date, morning, evening, rate.
      split; [done|]. split; [|done]. left.
      unfold JS.falsy in En. by apply String.eqb_eq in En. }
    destruct (JS.falsy mobile) eqn:Em.
    { right. split; [done|]. left. exists name, mobile, date, morning, evening, rate.
      split; [done|]. split; [|done]. right; left.
      unfold JS.falsy in Em. by apply String.eqb_eq in Em. }
    destruct (Number.isNaN morning) eqn:E1.
    { right. split; [done|]. left. exists name, mobile, date, morning, evening, rate. auto 10. }
    destruct (Number.isNaN evening) eqn:E2.
    { right. split; [done|]. left. exists name, mobile, date, morning, evening, rate. auto 10. }
    destruct (Number.isNaN rate) eqn:E3.
    { right. split; [done|]. left. exists name, mobile, date, morning, evening, rate. auto 10. }
    cbn [orb].
    destruct (Store.save _ db) as [[saved db']|err] eqn:Hsave; [by left|].
    right. split; [done|]. right.
    apply save_throws in Hsave as [(fs & -> & Hfs)|[-> Hdup]].
    + left. by exists fs.
    + right; right. done.
  - rewrite (post_api_bills_throws e _ db Hnone). right. split; [done|]. auto.
Qed.

(** X2: the create handler answers 201 exactly when the six coercions
    succeed with a valid date, the name is not empty, the mobile is ten
    digits, morning and evening are at least 0 and the rate at least 0.01,
    the amount is a number, and the generated [_id] is free. *)
Theorem X2_create_accepted_iff (e : env) (rawBody : JS.value) (db : collection) :
  status (post_api_bills Date_parse e rawBody db).1 = 201 <->
  exists name mobile t morning evening rate,
    coerced Date_parse rawBody name mobile (Some t) morning evening rate /\
    acceptable name mobile morning evening rate /\
    db !! fresh_id e = None.
Proof.
  split; [apply post_created_inv|].
  intros (name & mobile & t & morning & evening & rate & Hc & Ha & Hfree).
  by rewrite (post_created _ _ _ _ _ _ _ _ _ Hc Ha Hfree).
Qed.

(** X3: with the answer 201, the document returned and the one stored
    under the generated [_id] are the same: the coerced name, mobile, date,
    morning, evening and rate, the two totals computed from them, and the
    clock's time as [CreatedAt]; the rest of the collection is as it was. *)
Theorem X3_created_record (e : env) (rawBody : JS.value) (db : collection) :
  status (post_api_bills Date_parse e rawBody db).1 = 201 ->
  exists name mobile t morning evening rate,
    coerced Date_parse rawBody name mobile (Some t) morning evening rate /\
    post_api_bills Date_parse e rawBody db
    = ({| status := 201;
          body := JsonBill (fresh_id e, stored e name mobile t morning evening rate) |},
       <[fresh_id e := stored e name mobile t morning evening rate]> db).
Proof.
  intros (name & mobile & t & morning & evening & rate & Hc & Ha & Hfree)%post_created_inv.
  exists name, mobile, t, morning, evening, rate. split; [done|]. by apply post_created.
Qed.



End CreateCases.

(** ** Payloads at the edges *)

Section CreateEdges.

Import StoreFacts AmountFacts CoerceFacts.

Variable Date_parse : string -> option Z.

Lemma post_rejected (e : env) (rawBody : JS.value) (db : collection) :
  status (post_api_bills Date_parse e rawBody db).1 <> 201 ->
  status (post_api_bills Date_parse e rawBody db).1 = 400 /\
  (post_api_bills Date_parse e rawBody db).2 = db.
Proof.
  intros Hstatus.
  destruct (post_api_bills_cases Date_parse e rawBody db)
    as [H|(name & mobile & date & morning & evening & rate & b & _ & _ & _
           & _ & _ & _ & _ & _ & Hr)]; [exact H|].
  rewrite Hr in Hstatus. done.
Qed.

(** X4: a payload in which Morning, Evening or Rate is absent, null, a
    boolean or the empty string, which parseFloat reads as NaN, is answered
    400 and nothing is stored. *)
Theorem X4_unreadable_number_rejected (e : env) (rawBody : JS.value) (db : collection)
    (field : string) (v : JS.value) :
  field = "Morning"%string \/ field = "Evening"%string \/ field = "Rate"%string ->
  JS.get rawBody field = Ok v ->
  v = JS.JUndefined \/ v = JS.JNull \/ (exists b, v = JS.JBool b) \/ v = JS.JString "" ->
  JS.parseFloat v = Ok nan /\
  status (post_api_bills Date_parse e rawBody db).1 = 400 /\
  (post_api_bills Date_parse e rawBody db).2 = db.
Proof.
  intros Hfield Hget Hv.
  assert (Hnan : JS.parseFloat v = Ok nan).
  { destruct Hv as [-> | [-> | [[[] ->] | ->]]]; vm_compute; reflexivity. }
  split; [exact Hnan|]. apply post_rejected. intros Hstatus.
  apply (post_created_inv Date_parse) in Hstatus
    as (name & mobile & t & morning & evening & rate & Hc & Ha & _).
  destruct Hc as (_ & _ & _ & Hmo & Hev & Hra).
  destruct Ha as (_ & _ & H1 & H2 & H3 & _).
  destruct Hfield as [-> | [-> | ->]]; rewrite Hget in *; cbn [mbind result_bind] in *;
    rewrite Hnan in *; simplify_eq; discriminate.
Qed.

(** X5: a payload whose Date gives an Invalid Date is answered 400 and
    nothing is stored; when the other values are acceptable, the body is
    the validation error on the path Date alone. *)
Theorem X5_invalid_Date_rejected (e : env) (rawBody : JS.value) (db : collection)
    (name mobile : string) (morning evening rate : float) :
  coerced Date_parse rawBody name mobile None morning evening rate ->
  status (post_api_bills Date_parse e rawBody db).1 = 400 /\
  (post_api_bills Date_parse e rawBody db).2 = db /\
  (acceptable name mobile morning evening rate ->
   body (post_api_bills Date_parse e rawBody db).1
   = JsonDetails (MessageOf (ValidationError [(PDate, CastFailed)]))
       (ValidationError [(PDate, CastFailed)])).
Proof.
  intros Hc.
  assert (Hrej : status (post_api_bills Date_parse e rawBody db).1 <> 201).
  { intros (n & m & t & mo & ev & ra & Hc' & _)%post_created_inv.
    destruct Hc as (_ & _ & Hd & _), Hc' as (_ & _ & Hd' & _). congruence. }
  apply post_rejected in Hrej as [H400 Hdb]. split; [done|]. split; [done|].
  intros Ha. rewrite (post_api_bills_coerced _ e _ db _ _ _ _ _ _ Hc).
  pose proof (acceptable_amount _ _ _ _ _ Ha) as Hamount.
  destruct Ha as (Hn & Hm & H1 & H2 & H3 & H4).
  assert (Hm' : mobile <> ""%string).
  { intros ->. destruct Hm as [Hlen _]. discriminate. }
  apply falsy_empty in Hm'. apply falsy_empty in Hn.
  apply RegexFacts.Mobile_validator_spec in Hm.
  rewrite Hn, Hm', (geb_not_nan _ _ H1), (geb_not_nan _ _ H2), (geb_not_nan _ _ H3).
  cbn [orb]. unfold Store.save, Schema.validate, Schema.check_String, Schema.check_Date,
    Schema.check_Number, built.
  cbn [Doc.Name Doc.Mobile Doc.Date Doc.Morning Doc.Evening Doc.Rate Doc.TotalLiters
       Doc.TotalAmount Doc.CreatedAt].
  rewrite Hn, Hm', Hm, H1, H2, H3, Hamount.
  rewrite (geb_not_nan _ _ H1), (geb_not_nan _ _ H2), (geb_not_nan _ _ H3).
  rewrite (sum_not_nan _ _ H1 H2). reflexivity.
Qed.

(** X6: a payload with Date null that is answered 201 is stored with the
    epoch, time value 0, as its date: [new Date(null)] is a valid date. *)
Theorem X6_null_Date_is_epoch (e : env) (rawBody : JS.value) (db : collection) :
  JS.get rawBody "Date" = Ok JS.JNull ->
  status (post_api_bills Date_parse e rawBody db).1 = 201 ->
  exists b, (post_api_bills Date_parse e rawBody db).2 !! fresh_id e = Some b /\
            Date b = 0.
Proof.
  intros Hget Hstatus.
  destruct (post_created_inv Date_parse _ _ _ Hstatus)
    as (name & mobile & t & morning & evening & rate & Hc & Ha & Hfree).
  rewrite (post_created Date_parse _ _ _ _ _ _ _ _ _ Hc Ha Hfree).
  exists (stored e name mobile t morning evening rate).
  split; [apply lookup_insert_eq|].
  destruct Hc as (_ & _ & Hd & _). rewrite Hget in Hd. by injection Hd as <-.
Qed.

(** X7: a payload that was answered 201 is answered 201 again, under a
    fresh [_id]: the collection then holds two bills that differ in
    [CreatedAt] at most. *)
Theorem X7_same_payload_twice (e1 e2 : env) (rawBody : JS.value) (db : collection) :
  status (post_api_bills Date_parse e1 rawBody db).1 = 201 ->
  (post_api_bills Date_parse e1 rawBody db).2 !! fresh_id e2 = None ->
  exists b1 b2,
    post_api_bills Date_parse e2 rawBody (post_api_bills Date_parse e1 rawBody db).2
    = ({| status := 201; body := JsonBill (fresh_id e2, b2) |},
       <[fresh_id e2 := b2]> (<[fresh_id e1 := b1]> db)) /\
    fresh_id e1 <> fresh_id e2 /\
    b2 = {| Name := Name b1; Mobile := Mobile b1; Date := Date b1;
            Morning := Morning b1; Evening := Evening b1; Rate := Rate b1;
            TotalLiters := TotalLiters b1; TotalAmount := TotalAmount b1;
            CreatedAt := now e2 |}.
Proof.
  intros Hstatus.
  destruct (post_created_inv Date_parse _ _ _ Hstatus)
    as (name & mobile & t & morning & evening & rate & Hc & Ha & Hfree).
  rewrite (post_created Date_parse _ _ _ _ _ _ _ _ _ Hc Ha Hfree). cbn [snd].
  intros Hfree2.
  exists (stored e1 name mobile t morning evening rate),
         (stored e2 name mobile t morning evening rate).
  split; [by apply post_created|]. split; [|reflexivity].
  intros Heq. rewrite <- Heq, lookup_insert_eq in Hfree2. discriminate.
Qed.


End CreateEdges.

(** ** Queries *)

Section Queries.

Lemma find_sound (f : Store.filter) (db : collection) (bs : list document) :
  Store.find f db = Ok bs ->
  NoDup bs /\ forall d, d ∈ bs -> db !! d.1 = Some d.2.
Proof.
  destruct f as [|q]; cbn [Store.find].
  - intros [= <-]. split; [apply NoDup_map_to_list|].
    intros d. by rewrite StoreFacts.elem_of_documents.
  - destruct (Regex.compile q) as [r|]; [|discriminate]. intros [= <-]. split.
    + apply NoDup_ListNoDup, List.NoDup_filter, NoDup_ListNoDup, NoDup_map_to_list.
    + intros d [Hd _]%list_elem_of_In%filter_In.
      by apply StoreFacts.elem_of_documents, list_elem_of_In.
Qed.

Lemma query_answer (query : option string) (db : collection) :
  match truthy query with
  | None =>
      get_api_bills query db
      = {| status := 200; body := JsonBills (Store.sort (Store.documents db)) |} /\
      get_api_bills_search query db
      = {| status := 400; body := JsonError (Text "Search query required") |}
  | Some q =>
      match Store.find (Store.NameOrMobile q) db with
      | Ok bs =>
          get_api_bills query db
          = {| status := 200; body := JsonBills (Store.sort bs) |} /\
          get_api_bills_search query db
          = {| status := 200; body := JsonBills (Store.sort bs) |}
      | Throw _ =>
          get_api_bills query db
          = {| status := 500; body := JsonError (Text "Failed to fetch bills") |} /\
          get_api_bills_search query db
          = {| status := 500; body := JsonError (Text "Search failed") |}
      end
  end.
Proof.
  unfold get_api_bills, get_api_bills_search.
  destruct (truthy query) as [q|]; [|done].
  by destruct (Store.find (Store.NameOrMobile q) db).
Qed.

(** X8: the search handler and the list handler agree on every query:
    both answer 200 with the same bills; or the query is absent or empty,
    the search answers 400 and the list answers as for no query; or both
    answer 500, each with its own text. *)
Theorem X8_search_or_list (query : option string) (db : collection) :
  (exists bills,
     get_api_bills_search query db = {| status := 200; body := JsonBills bills |} /\
     get_api_bills query db = {| status := 200; body := JsonBills bills |})
  \/ (get_api_bills_search query db
      = {| status := 400; body := JsonError (Text "Search query required") |} /\
      (query = None \/ query = Some ""%string) /\
      get_api_bills query db = get_api_bills None db)
  \/ (get_api_bills_search query db
      = {| status := 500; body := JsonError (Text "Search failed") |} /\
      get_api_bills query db
      = {| status := 500; body := JsonError (Text "Failed to fetch bills") |}).
Proof.
  pose proof (query_answer query db) as H.
  destruct (truthy query) as [q|] eqn:Hq.
  - destruct (Store.find (Store.NameOrMobile q) db) as [bs|err].
    + left. exists (Store.sort bs). by destruct H.
    + right; right. by destruct H.
  - right; left. destruct H as [H1 H2]. split; [done|]. split; [|done].
    destruct query as [q|]; [|by left]. right. unfold truthy, JS.falsy in Hq.
    destruct (String.eqb q "") eqn:E; [|discriminate]. by apply String.eqb_eq in E as ->.
Qed.

(** X9: whatever the query, the bills in a body of the list or the
    search handler are stored bills, each once, later dates first, and not
    more than the collection holds. *)
Theorem X9_listing_sound (query : option string) (db : collection) (bills : list document) :
  body (get_api_bills query db) = JsonBills bills
  \/ body (get_api_bills_search query db) = JsonBills bills ->
  StronglySorted Store.Date_desc bills /\
  NoDup bills /\
  (forall d, d ∈ bills -> db !! d.1 = Some d.2) /\
  (length bills <= size db)%nat.
Proof.
  intros H.
  assert (exists f bs, Store.find f db = Ok bs /\ bills = Store.sort bs)
    as (f & bs & Hf & ->).
  { pose proof (query_answer query db) as Hq.
    destruct (truthy query) as [q|].
    - destruct (Store.find (Store.NameOrMobile q) db) as [bs|err] eqn:Hf;
        destruct Hq as [H1 H2]; rewrite H1, H2 in H; cbn [body] in H.
      + exists (Store.NameOrMobile q), bs. split; [done|]. by destruct H as [[= <-]|[= <-]].
      + by destruct H.
    - destruct Hq as [H1 H2]; rewrite H1, H2 in H; cbn [body] in H.
      exists Store.All, (Store.documents db). split; [done|]. by destruct H as [[= <-]|].  }
  apply find_sound in Hf as [Hnd Hin].
  split; [apply StoreFacts.sort_sorted|]. split; [by rewrite StoreFacts.sort_perm|].
  split; [intros d; rewrite StoreFacts.sort_perm; apply Hin|].
  rewrite StoreFacts.sort_perm. rewrite <- (length_map_to_list db).
  apply submseteq_length, NoDup_submseteq; [done|].
  intros d Hd. apply elem_of_map_to_list'. by apply Hin.
Qed.

(** *** Anchored queries *)








(** *** Digits and texts as queries *)




End Queries.

(** ** Requests one after another *)

Section Composition.

Import StoreFacts AmountFacts.

Variable Date_parse : string -> option Z.

Lemma delete_cases (id : string) (db : collection) :
  (exists i b, Store.castObjectId id = Some i /\ db !! i = Some b /\
               delete_api_bills id db
               = ({| status := 200; body := JsonMessage "Bill deleted successfully" |},
                  delete i db))
  \/ (exists i, Store.castObjectId id = Some i /\ db !! i = None /\
                delete_api_bills id db
                = ({| status := 404; body := JsonError (Text "Bill not found") |}, db))
  \/ (Store.castObjectId id = None /\
      delete_api_bills id db
      = ({| status := 500; body := JsonError (MessageOf (CastError P_id)) |}, db)).
Proof.
  unfold delete_api_bills, Store.findByIdAndDelete.
  destruct (Store.castObjectId id) as [i|]; [|by right; right].
  destruct (db !! i) as [b|] eqn:Hb; [left|right; left]; eauto.
Qed.

(** X11: no request changes a stored bill.  After any request, a bill
    of the collection is there as it was, or it is gone and the request was
    the delete of its [_id], answered 200. *)
Theorem X11_stored_bill_immutable (r : req) (db : collection) (i : N) (b : Bill) :
  db !! i = Some b ->
  (handle Date_parse r db).2 !! i = Some b
  \/ ((handle Date_parse r db).2 !! i = None /\
      exists id, r = DeleteBill id /\ Store.castObjectId id = Some i /\
                 status (handle Date_parse r db).1 = 200).
Proof.
  intros Hb. destruct r as [e rawBody|query|query|id]; cbn [handle snd fst].
  - left.
    destruct (post_api_bills_cases Date_parse e rawBody db)
      as [[_ ->]|(name & mobile & date & morning & evening & rate & b' & _ & _ & _
                  & _ & _ & _ & _ & Hfree & ->)]; [done|].
    cbn [snd]. rewrite lookup_insert_ne; [done|]. intros <-. congruence.
  - by left.
  - by left.
  - destruct (delete_cases id db)
      as [(j & b' & Hid & Hj & ->)|[(j & Hid & Hj & ->)|[Hid ->]]]; cbn [snd fst];
      [|by left..].
    destruct (decide (j = i)) as [->|Hne].
    + right. split; [apply lookup_delete_eq|]. by exists id.
    + left. by rewrite lookup_delete_ne.
Qed.

Lemma handle_valid (r : req) (db : collection) :
  valid_collection db -> valid_collection (handle Date_parse r db).2.
Proof.
  intros Hdb. destruct r as [e rawBody|query|query|id]; cbn [handle snd]; try done.
  - destruct (status (post_api_bills Date_parse e rawBody db).1 =? 201) eqn:E.
    + apply Z.eqb_eq in E.
      destruct (post_created_inv Date_parse _ _ _ E)
        as (name & mobile & t & morning & evening & rate & Hc & Ha & Hfree).
      rewrite (post_created Date_parse _ _ _ _ _ _ _ _ _ Hc Ha Hfree). cbn [snd].
      intros i b. rewrite lookup_insert. case_decide as Hi.
      * intros [= <-]. pose proof (acceptable_amount _ _ _ _ _ Ha).
        destruct Ha as (? & ? & ? & ? & ? & ?).
        unfold valid_bill, stored. cbn. by split_and!.
      * apply Hdb.
    + apply Z.eqb_neq in E. by apply post_rejected in E as [_ ->].
  - destruct (delete_cases id db)
      as [(j & b' & Hid & Hj & ->)|[(j & Hid & Hj & ->)|[Hid ->]]]; cbn [snd]; try done.
    intros i b Hi. apply lookup_delete_Some in Hi as [_ Hi]. by eapply Hdb.
Qed.

Lemma serve_valid (rs : list req) (db : collection) :
  valid_collection db -> valid_collection (serve Date_parse rs db).2.
Proof.
  revert db. induction rs as [|r rs IH]; intros db Hdb; [done|].
  cbn [serve]. pose proof (handle_valid r db Hdb) as H1.
  destruct (handle Date_parse r db) as [res db1].
  specialize (IH db1 H1). by destruct (serve Date_parse rs db1).
Qed.

(** X12: whatever requests are served from the empty collection, every
    bill stored has a name, a mobile of ten digits, morning and evening at
    least 0, a rate at least 0.01, and totals that are the sum and the
    product of these, the amount being a number. *)
Theorem X12_served_bills_valid (rs : list req) :
  valid_collection (serve Date_parse rs ∅).2.
Proof. apply serve_valid. intros i b Hi. by rewrite lookup_empty in Hi. Qed.

(** X13: after a create answered 201, the list of all bills holds the
    document of the answer, which the list before did not, and every bill
    of the list before: it is longer by one. *)
Theorem X13_created_then_listed (e : env) (rawBody : JS.value) (db : collection) :
  status (post_api_bills Date_parse e rawBody db).1 = 201 ->
  exists doc before after,
    body (post_api_bills Date_parse e rawBody db).1 = JsonBill doc /\
    get_api_bills None db = {| status := 200; body := JsonBills before |} /\
    get_api_bills None (post_api_bills Date_parse e rawBody db).2
    = {| status := 200; body := JsonBills after |} /\
    doc ∈ after /\ (doc ∉ before) /\
    (forall d, d ∈ before -> d ∈ after) /\
    length after = S (length before).
Proof.
  intros Hstatus.
  destruct (post_created_inv Date_parse _ _ _ Hstatus)
    as (name & mobile & t & morning & evening & rate & Hc & Ha & Hfree).
  rewrite (post_created Date_parse _ _ _ _ _ _ _ _ _ Hc Ha Hfree). cbn [fst snd body].
  set (b := stored e name mobile t morning evening rate).
  exists (fresh_id e, b), (Store.sort (Store.documents db)),
         (Store.sort (Store.documents (<[fresh_id e := b]> db))).
  split; [done|]. split; [done|]. split; [done|].
  split; [|split; [|split]].
  - rewrite sort_perm. apply elem_of_documents. apply lookup_insert_eq.
  - rewrite sort_perm, elem_of_documents. cbn [fst snd]. congruence.
  - intros [j b']. rewrite !sort_perm, !elem_of_documents. cbn [fst snd]. intros Hj.
    rewrite lookup_insert_ne; [done|]. intros <-. congruence.
  - rewrite !sort_perm. unfold Store.documents. rewrite !length_map_to_list.
    by apply map_size_insert_None.
Qed.

(** X14: deleting the [_id] of a bill just created is answered 200 and
    gives back the collection as it was before the create. *)
Theorem X14_created_then_deleted (e : env) (rawBody : JS.value) (db : collection) (id : string) :
  status (post_api_bills Date_parse e rawBody db).1 = 201 ->
  Store.castObjectId id = Some (fresh_id e) ->
  delete_api_bills id (post_api_bills Date_parse e rawBody db).2
  = ({| status := 200; body := JsonMessage "Bill deleted successfully" |}, db).
Proof.
  intros Hstatus Hid.
  destruct (post_api_bills_cases Date_parse e rawBody db)
    as [[H400 _]|(name & mobile & date & morning & evening & rate & b & _ & _ & _
                  & _ & _ & _ & _ & Hfree & Hr)].
  - rewrite H400 in Hstatus. discriminate.
  - rewrite Hr. cbn [snd]. unfold delete_api_bills, Store.findByIdAndDelete.
    rewrite Hid, lookup_insert_eq, delete_insert_eq. by rewrite (delete_id db _ Hfree).
Qed.

(** X15: the second delete of an [_id] is answered 404, and leaves the
    collection as the first delete left it. *)
Theorem X15_deleted_twice (id : string) (db : collection) (i : N) :
  Store.castObjectId id = Some i ->
  delete_api_bills id (delete_api_bills id db).2
  = ({| status := 404; body := JsonError (Text "Bill not found") |},
     delete i db).
Proof.
  intros Hid. unfold delete_api_bills, Store.findByIdAndDelete. rewrite Hid.
  destruct (db !! i) as [b|] eqn:Hb; cbn [snd].
  - by rewrite lookup_delete_eq.
  - by rewrite Hb, (delete_id db i Hb).
Qed.


(** X17: a request leaves the collection as it was, unless it is a
    create answered 201, which adds one bill under an [_id] that was free,
    or a delete answered 200, which removes the bill of its [_id]. *)
Theorem X17_store_changes (r : req) (db : collection) :
  (handle Date_parse r db).2 = db
  \/ (exists e rawBody b,
        r = PostBill e rawBody /\ status (handle Date_parse r db).1 = 201 /\
        db !! fresh_id e = None /\
        (handle Date_parse r db).2 = <[fresh_id e := b]> db /\
        size (handle Date_parse r db).2 = S (size db))
  \/ (exists id i b,
        r = DeleteBill id /\ status (handle Date_parse r db).1 = 200 /\
        Store.castObjectId id = Some i /\ db !! i = Some b /\
        (handle Date_parse r db).2 = delete i db /\
        S (size (handle Date_parse r db).2) = size db).
Proof.
  destruct r as [e rawBody|query|query|id]; cbn [handle fst snd]; [|by left..|].
  - destruct (post_api_bills_cases Date_parse e rawBody db)
      as [[_ ->]|(name & mobile & date & morning & evening & rate & b & _ & _ & _
                  & _ & _ & _ & _ & Hfree & Hr)]; [by left|].
    right; left. exists e, rawBody, b. rewrite Hr. cbn [fst snd status].
    split_and!; try done. by rewrite map_size_insert_None.
  - destruct (delete_cases id db)
      as [(j & b' & Hid & Hj & ->)|[(j & Hid & Hj & ->)|[Hid ->]]]; cbn [snd fst];
      [|by left..].
    right; right. exists id, j, b'. split_and!; try done. cbn [status].
    rewrite <- (insert_delete_id db j b' Hj) at 2.
    by rewrite map_size_insert_None by apply lookup_delete_eq.
Qed.


End Composition.

(** ** The further properties on examples *)


Lemma X3_created_record_witness :
  status (post_api_bills IsoDate.parse Sample.e Sample.request ∅).1 = 201 /\
  exists name mobile t morning evening rate,
    coerced IsoDate.parse Sample.request name mobile (Some t) morning evening rate /\
    post_api_bills IsoDate.parse Sample.e Sample.request ∅
    = ({| status := 201;
          body := JsonBill (fresh_id Sample.e,
                            stored Sample.e name mobile t morning evening rate) |},
       <[fresh_id Sample.e := stored Sample.e name mobile t morning evening rate]> ∅).
Proof.
  assert (H : status (post_api_bills IsoDate.parse Sample.e Sample.request ∅).1 = 201)
    by (vm_compute; reflexivity).
  split; [exact H|].
  exact (X3_created_record IsoDate.parse Sample.e Sample.request ∅ H).
Defined.

Lemma X4_unreadable_number_rejected_witness :
  ("Morning"%string = "Morning"%string \/ "Morning"%string = "Evening"%string
   \/ "Morning"%string = "Rate"%string) /\
  JS.get Edge.no_Morning "Morning" = Ok JS.JUndefined /\
  (JS.JUndefined = JS.JUndefined \/ JS.JUndefined = JS.JNull
   \/ (exists b, JS.JUndefined = JS.JBool b) \/ JS.JUndefined = JS.JString "") /\
  JS.parseFloat JS.JUndefined = Ok nan /\
  status (post_api_bills IsoDate.parse Sample.e Edge.no_Morning ∅).1 = 400 /\
  (post_api_bills IsoDate.parse Sample.e Edge.no_Morning ∅).2 = ∅.
Proof.
  assert (H1 : "Morning"%string = "Morning"%string \/ "Morning"%string = "Evening"%string
               \/ "Morning"%string = "Rate"%string) by (left; reflexivity).
  assert (H2 : JS.get Edge.no_Morning "Morning" = Ok JS.JUndefined) by reflexivity.
  assert (H3 : JS.JUndefined = JS.JUndefined \/ JS.JUndefined = JS.JNull
               \/ (exists b, JS.JUndefined = JS.JBool b)
               \/ JS.JUndefined = JS.JString "") by (left; reflexivity).
  split; [exact H1|]. split; [exact H2|]. split; [exact H3|].
  exact (X4_unreadable_number_rejected IsoDate.parse Sample.e Edge.no_Morning ∅
           "Morning" JS.JUndefined H1 H2 H3).
Defined.

Lemma X5_invalid_Date_rejected_witness :
  let rawBody := Edge.dated (JS.JString "yesterday") in
  coerced IsoDate.parse rawBody "Asha" "9876543210" None 2 1.5 50 /\
  status (post_api_bills IsoDate.parse Sample.e rawBody ∅).1 = 400 /\
  (post_api_bills IsoDate.parse Sample.e rawBody ∅).2 = ∅ /\
  (acceptable "Asha" "9876543210" 2 1.5 50 ->
   body (post_api_bills IsoDate.parse Sample.e rawBody ∅).1
   = JsonDetails (MessageOf (ValidationError [(PDate, CastFailed)]))
       (ValidationError [(PDate, CastFailed)])).
Proof.
  intros rawBody.
  assert (H : coerced IsoDate.parse rawBody "Asha" "9876543210" None 2 1.5 50)
    by (repeat split; vm_compute; reflexivity).
  split; [exact H|].
  exact (X5_invalid_Date_rejected IsoDate.parse Sample.e rawBody ∅
           "Asha" "9876543210" 2%float 1.5%float 50%float H).
Defined.

Lemma X6_null_Date_is_epoch_witness :
  JS.get (Edge.dated JS.JNull) "Date" = Ok JS.JNull /\
  status (post_api_bills IsoDate.parse Sample.e (Edge.dated JS.JNull) ∅).1 = 201 /\
  exists b,
    (post_api_bills IsoDate.parse Sample.e (Edge.dated JS.JNull) ∅).2 !! fresh_id Sample.e
    = Some b /\ Date b = 0.
Proof.
  assert (H1 : JS.get (Edge.dated JS.JNull) "Date" = Ok JS.JNull) by reflexivity.
  assert (H2 : status (post_api_bills IsoDate.parse Sample.e (Edge.dated JS.JNull) ∅).1
               = 201) by (vm_compute; reflexivity).
  split; [exact H1|]. split; [exact H2|].
  exact (X6_null_Date_is_epoch IsoDate.parse Sample.e (Edge.dated JS.JNull) ∅ H1 H2).
Defined.

Lemma X7_same_payload_twice_witness :
  status (post_api_bills IsoDate.parse Sample.e Sample.request ∅).1 = 201 /\
  (post_api_bills IsoDate.parse Sample.e Sample.request ∅).2 !! fresh_id Edge.later = None /\
  exists b1 b2,
    post_api_bills IsoDate.parse Edge.later Sample.request
      (post_api_bills IsoDate.parse Sample.e Sample.request ∅).2
    = ({| status := 201; body := JsonBill (fresh_id Edge.later, b2) |},
       <[fresh_id Edge.later := b2]> (<[fresh_id Sample.e := b1]> ∅)) /\
    fresh_id Sample.e <> fresh_id Edge.later /\
    b2 = {| Name := Name b1; Mobile := Mobile b1; Date := Date b1;
            Morning := Morning b1; Evening := Evening b1; Rate := Rate b1;
            TotalLiters := TotalLiters b1; TotalAmount := TotalAmount b1;
            CreatedAt := now Edge.later |}.
Proof.
  assert (H1 : status (post_api_bills IsoDate.parse Sample.e Sample.request ∅).1 = 201)
    by (vm_compute; reflexivity).
  assert (H2 : (post_api_bills IsoDate.parse Sample.e Sample.request ∅).2
               !! fresh_id Edge.later = None) by (vm_compute; reflexivity).
  split; [exact H1|]. split; [exact H2|].
  exact (X7_same_payload_twice IsoDate.parse Sample.e Edge.later Sample.request ∅ H1 H2).
Defined.

Lemma X9_listing_sound_witness :
  (body (get_api_bills (Some "ash"%string) Sample.db) = JsonBills [(1%N, Sample.asha)]
   \/ body (get_api_bills_search (Some "ash"%string) Sample.db)
      = JsonBills [(1%N, Sample.asha)]) /\
  StronglySorted Store.Date_desc [(1%N, Sample.asha)] /\
  NoDup [(1%N, Sample.asha)] /\
  (forall d, d ∈ [(1%N, Sample.asha)] -> Sample.db !! d.1 = Some d.2) /\
  (length [(1%N, Sample.asha)] <= size Sample.db)%nat.
Proof.
  assert (H : body (get_api_bills (Some "ash"%string) Sample.db)
              = JsonBills [(1%N, Sample.asha)]
              \/ body (get_api_bills_search (Some "ash"%string) Sample.db)
                 = JsonBills [(1%N, Sample.asha)])
    by (left; vm_compute; reflexivity).
  split; [exact H|].
  exact (X9_listing_sound (Some "ash"%string) Sample.db [(1%N, Sample.asha)] H).
Defined.


Lemma X11_stored_bill_immutable_witness :
  Sample.db !! 1%N = Some Sample.asha /\
  ((handle IsoDate.parse (DeleteBill Edge.id_1) Sample.db).2 !! 1%N = Some Sample.asha
   \/ ((handle IsoDate.parse (DeleteBill Edge.id_1) Sample.db).2 !! 1%N = None /\
       exists id, DeleteBill Edge.id_1 = DeleteBill id /\
                  Store.castObjectId id = Some 1%N /\
                  status (handle IsoDate.parse (DeleteBill Edge.id_1) Sample.db).1 = 200)).
Proof.
  assert (H : Sample.db !! 1%N = Some Sample.asha) by reflexivity.
  split; [exact H|].
  exact (X11_stored_bill_immutable IsoDate.parse (DeleteBill Edge.id_1) Sample.db
           1%N Sample.asha H).
Defined.

Lemma X13_created_then_listed_witness :
  status (post_api_bills IsoDate.parse Edge.later Sample.request Sample.db).1 = 201 /\
  exists doc before after,
    body (post_api_bills IsoDate.parse Edge.later Sample.request Sample.db).1
    = JsonBill doc /\
    get_api_bills None Sample.db = {| status := 200; body := JsonBills before |} /\
    get_api_bills None (post_api_bills IsoDate.parse Edge.later Sample.request Sample.db).2
    = {| status := 200; body := JsonBills after |} /\
    doc ∈ after /\ (doc ∉ before) /\
    (forall d, d ∈ before -> d ∈ after) /\
    length after = S (length before).
Proof.
  assert (H : status (post_api_bills IsoDate.parse Edge.later Sample.request Sample.db).1
              = 201) by (vm_compute; reflexivity).
  split; [exact H|].
  exact (X13_created_then_listed IsoDate.parse Edge.later Sample.request Sample.db H).
Defined.

Lemma X14_created_then_deleted_witness :
  status (post_api_bills IsoDate.parse Sample.e Sample.request ∅).1 = 201 /\
  Store.castObjectId Edge.id_1 = Some (fresh_id Sample.e) /\
  delete_api_bills Edge.id_1 (post_api_bills IsoDate.parse Sample.e Sample.request ∅).2
  = ({| status := 200; body := JsonMessage "Bill deleted successfully" |}, ∅).
Proof.
  assert (H1 : status (post_api_bills IsoDate.parse Sample.e Sample.request ∅).1 = 201)
    by (vm_compute; reflexivity).
  assert (H2 : Store.castObjectId Edge.id_1 = Some (fresh_id Sample.e))
    by (vm_compute; reflexivity).
  split; [exact H1|]. split; [exact H2|].
  exact (X14_created_then_deleted IsoDate.parse Sample.e Sample.request ∅ Edge.id_1 H1 H2).
Defined.

Lemma X15_deleted_twice_witness :
  Store.castObjectId Edge.id_1 = Some 1%N /\
  delete_api_bills Edge.id_1 (delete_api_bills Edge.id_1 Sample.db).2
  = ({| status := 404; body := JsonError (Text "Bill not found") |},
     delete 1%N Sample.db).
Proof.
  assert (H : Store.castObjectId Edge.id_1 = Some 1%N) by (vm_compute; reflexivity).
  split; [exact H|]. exact (X15_deleted_twice Edge.id_1 Sample.db 1%N H).
Defined.


(** The requests of the examples, one after another: a create, the same
    create again, the list, a search, and the delete of the first bill
    twice. *)
Example serve_example :
  map status
    (serve IsoDate.parse
       [PostBill Sample.e Sample.request; PostBill Edge.later Sample.request;
        GetBills None; SearchBills (Some "^98"%string); SearchBills None;
        DeleteBill Edge.id_1; DeleteBill Edge.id_1; DeleteBill "1"] ∅).1
  = [201; 201; 200; 200; 400; 200; 404; 500].
Proof. vm_compute. reflexivity. Qed.
